(** * Duplicate detection service (server/src/services/duplicate.service.ts)

    A shallow embedding of [DuplicateService]: the two job handlers
    [handleQueueSearchDuplicates] (scan-all) and [handleSearchDuplicates]
    (scan-one) and the private [updateDuplicates] (cluster merge), run in a
    small state-and-trace monad over the tables the repositories touch.
    The calls to the logger are left out: they touch no repository. *)

From Stdlib Require Import QArith.
From stdpp Require Import gmap strings pretty list fin_maps.

(** ** Data model *)

(** [string | null] fields are [option string]; a JavaScript condition on such
    a value ([if (x)], [!x], [!!x]) is false on [null] and on the empty string. *)
Definition truthy (x : option string) : bool :=
  match x with
  | None => false
  | Some EmptyString => false
  | Some (String _ _) => true
  end.

Inductive JobStatus := SUCCESS | FAILED | SKIPPED.

Inductive JobName := QUEUE_DUPLICATE_DETECTION | DUPLICATE_DETECTION.

(** Modelled from the spec: the enum [AssetVisibility] is declared in src/enum,
    which is not among the sources; the spec gives "one of
    normal/hidden/locked", and the service only tests for the last two. *)
Inductive AssetVisibility := NORMAL | HIDDEN | LOCKED.

#[global] Instance AssetVisibility_eq_dec : EqDecision AssetVisibility.
Proof. solve_decision. Defined.

Definition Date := nat.

(** One row of the asset table, keyed by the asset id. *)
Record AssetRow := {
  ownerId : string;
  type : string;
  visibility : AssetVisibility;
  stackId : option string;
  embedding : option string;
  duplicateId : option string;
}.

Definition set_duplicateId (d : option string) (r : AssetRow) : AssetRow :=
  {| ownerId := ownerId r; type := type r; visibility := visibility r;
     stackId := stackId r; embedding := embedding r; duplicateId := d |}.

(** What [getForSearchDuplicatesJob] hands to the service: the row and its id. *)
Record Asset := { id : string; row : AssetRow }.

(** [AssetDuplicateResult] of the search repository; its [distance] field is
    never read by the service and is left out. *)
Module AssetDuplicateResult.
Record t := { assetId : string; duplicateId : option string }.
End AssetDuplicateResult.
Abbreviation Candidate := AssetDuplicateResult.t.
Abbreviation cand_assetId := AssetDuplicateResult.assetId.
Abbreviation cand_duplicateId := AssetDuplicateResult.duplicateId.

Record DuplicateSearch := {
  search_assetId : string;
  search_embedding : string;
  search_maxDistance : Q;
  search_type : string;
  search_userIds : list string;
}.

Record DuplicateMergeOptions := {
  targetId : string;
  assetIds : list string;
  sourceIds : list string;
}.

Record JobItem := { name : JobName; data_id : string }.

(** Modelled from the spec: [isDuplicateDetectionEnabled] comes from
    src/utils/misc, which is not among the sources; the spec gives it as
    [isFeatureEnabled() -> bool], here a flag of the configuration. *)
Record MachineLearning := {
  detectionEnabled : bool;
  duplicateDetection_maxDistance : Q;
}.

Definition isDuplicateDetectionEnabled (ml : MachineLearning) : bool :=
  detectionEnabled ml.

(** ** The world the service runs in *)

Record World := {
  machineLearning : MachineLearning;        (* what getConfig returns *)
  assets : gmap string AssetRow;            (* the asset table *)
  jobStatus : gmap string Date;             (* duplicatesDetectedAt per asset *)
  queue : list JobItem;                     (* jobs handed to the job queue *)
  uuids : nat;                              (* ids drawn from randomUUID so far *)
  clock : Date;                             (* what new Date() reads *)
}.

Definition with_assets (f : gmap string AssetRow → gmap string AssetRow) (w : World)
  : World :=
  {| machineLearning := machineLearning w; assets := f (assets w);
     jobStatus := jobStatus w; queue := queue w; uuids := uuids w; clock := clock w |}.

(** Calls made on the repositories, in the order the service makes them. *)
Inductive Call :=
  | CSearch (q : DuplicateSearch) (result : list Candidate)
  | CMerge (o : DuplicateMergeOptions)
  | CUpdate (assetId : string) (duplicateId : option string)
  | CUpsertJobStatus (items : list (string * Date))
  | CQueueAll (jobs : list JobItem)
  | CRandomUUID (value : string).

(** State and trace: a computation reads and changes the world and emits the
    repository calls it makes. *)
Definition M (A : Type) : Type := World → A * World * list Call.

Definition ret {A} (a : A) : M A := λ w, (a, w, []).

Definition bind {A B} (m : M A) (f : A → M B) : M B :=
  λ w, let '(a, w1, t1) := m w in
       let '(b, w2, t2) := f a w1 in
       (b, w2, t1 ++ t2).

Declare Scope service_scope.
Delimit Scope service_scope with service.
Notation "'let!' x ':=' m 'in' k" := (bind m (λ x, k))
  (at level 10, x name, m at level 100, k at level 200,
   format "'[v' 'let!'  x  ':='  m  'in' '/' k ']'") : service_scope.
Notation "m '>>' k" := (bind m (λ _, k))
  (at level 100, k at level 200, right associativity,
   format "'[v' m  '>>' '/' k ']'") : service_scope.
Local Open Scope service_scope.

Definition reads {A} (f : World → A) : M A := λ w, (f w, w, []).

(** ** JavaScript helpers used by the service *)

(** [new Set(xs)] spread back into an array: elements in insertion order,
    a value already present is not added again. *)
Definition Set_add (s : list string) (x : string) : list string :=
  if bool_decide (x ∈ s) then s else s ++ [x].

Definition new_Set (xs : list string) : list string := fold_left Set_add xs [].

(** [xs.filter(x => !!x.duplicateId).map(x => x.duplicateId)] *)
Definition truthy_duplicateIds (cs : list Candidate) : list string :=
  omap (λ c, if truthy (cand_duplicateId c) then cand_duplicateId c else None) cs.

(** [xs.filter(x => x.duplicateId !== target).map(x => x.assetId)] *)
Definition other_assetIds (target : string) (cs : list Candidate) : list string :=
  cand_assetId <$> filter (λ c, cand_duplicateId c ≠ Some target) cs.

(** ** Repositories *)

Definition getConfig (withCache : bool) : M MachineLearning := reads machineLearning.

(** Modelled from the spec: [assetJobRepository.getForSearchDuplicatesJob] is
    not among the sources; the spec gives it as a point lookup of one asset's
    scan-relevant fields, [loadForDetection(id) -> Asset | absent]. *)
Definition assetJobRepository_getForSearchDuplicatesJob (i : string) : M (option Asset) :=
  reads (λ w, (λ r, {| id := i; row := r |}) <$> assets w !! i).

(** Modelled from the spec: [assetRepository.update] is not among the sources;
    the service only calls it with [duplicateId: null], the spec's
    [clearGroup(assetId)]: that asset's group id becomes absent. *)
Definition assetRepository_update (i : string) (d : option string) : M unit :=
  λ w, (tt, with_assets (alter (set_duplicateId d) i) w, [CUpdate i d]).

(** Modelled from the spec: [assetRepository.upsertJobStatus] is not among the
    sources; the spec gives it as [stampScanned(assetId, timestamp)], batched
    over several ids. *)
Definition assetRepository_upsertJobStatus (items : list (string * Date)) : M unit :=
  λ w, (tt,
        {| machineLearning := machineLearning w; assets := assets w;
           jobStatus := foldl (λ m it, <[it.1 := it.2]> m) (jobStatus w) items;
           queue := queue w; uuids := uuids w; clock := clock w |},
        [CUpsertJobStatus items]).

(** Modelled from the spec: [duplicateRepository.merge] is not among the
    sources; the spec gives it as [mergeGroups(targetGroupId, assetIds,
    sourceGroupIds)]: the listed assets, and every asset currently in a source
    group, are reassigned to the target group, in one atomic step. *)
Definition merge_row (o : DuplicateMergeOptions) (i : string) (r : AssetRow) : AssetRow :=
  if bool_decide (i ∈ assetIds o)
     || match duplicateId r with
        | Some g => bool_decide (g ∈ sourceIds o)
        | None => false
        end
  then set_duplicateId (Some (targetId o)) r
  else r.

Definition duplicateRepository_merge (o : DuplicateMergeOptions) : M unit :=
  λ w, (tt, with_assets (map_imap (λ i r, Some (merge_row o i r))) w, [CMerge o]).

(** Modelled from the spec: [jobRepository.queueAll] is not among the sources;
    the spec gives it as [submitJobs(jobs)], one submission of a batch. *)
Definition jobRepository_queueAll (jobs : list JobItem) : M unit :=
  λ w, (tt,
        {| machineLearning := machineLearning w; assets := assets w;
           jobStatus := jobStatus w; queue := queue w ++ jobs;
           uuids := uuids w; clock := clock w |},
        [CQueueAll jobs]).

Definition new_Date : M Date := reads clock.

Section Service.

(** The constant of src/constants, which is not among the sources. *)
Variable JOBS_ASSET_PAGINATION_SIZE : nat.

(** The [n]-th id the random generator of the crypto repository hands out. *)
Variable uuid_source : nat → string.

(** The similarity search of the duplicate repository and the enumeration
    of the asset-job repository, both outside the sources: any functions of
    the query and the asset table. *)
Variable similaritySearch : DuplicateSearch → gmap string AssetRow → list Candidate.
Variable eligibleAssets : bool → gmap string AssetRow → list string.

Definition cryptoRepository_randomUUID : M string :=
  λ w, let v := uuid_source (uuids w) in
       (v,
        {| machineLearning := machineLearning w; assets := assets w;
           jobStatus := jobStatus w; queue := queue w;
           uuids := S (uuids w); clock := clock w |},
        [CRandomUUID v]).

Definition duplicateRepository_search (q : DuplicateSearch) : M (list Candidate) :=
  λ w, let r := similaritySearch q (assets w) in (r, w, [CSearch q r]).

Definition assetJobRepository_streamForSearchDuplicates (force : bool)
  : M (list string) :=
  reads (λ w, eligibleAssets force (assets w)).

(** *** updateDuplicates

    [asset.duplicateId ?? duplicateIds.shift() ?? randomUUID()]: the right
    operand of [??] is evaluated only when the left one is null, so [shift]
    removes the head of [duplicateIds] only when the asset has no group, and
    an id is drawn only when, besides, [duplicateIds] is empty. The pair
    returned is the target and [duplicateIds] as it is afterwards. *)
Definition chooseTarget (own : option string) (duplicateIds : list string)
  : M (string * list string) :=
  match own with
  | Some g => ret (g, duplicateIds)
  | None =>
      match duplicateIds with
      | g :: rest => ret (g, rest)
      | [] => let! u := cryptoRepository_randomUUID in ret (u, [])
      end
  end.

Definition updateDuplicates (asset : Asset) (duplicateAssets : list Candidate)
  : M (list string) :=
  let duplicateIds := new_Set (truthy_duplicateIds duplicateAssets) in
  let! chosen := chooseTarget (duplicateId (row asset)) duplicateIds in
  let targetDuplicateId := chosen.1 in
  let duplicateIds := chosen.2 in
  let assetIdsToUpdate :=
    other_assetIds targetDuplicateId duplicateAssets ++ [id asset] in
  duplicateRepository_merge
    {| targetId := targetDuplicateId;
       assetIds := assetIdsToUpdate;
       sourceIds := duplicateIds |} >>
  ret assetIdsToUpdate.

(** *** handleSearchDuplicates (scan-one)

    [let assetIds = [asset.id]; if (duplicateAssets.length > 0) { assetIds =
    await this.updateDuplicates(...) } else if (asset.duplicateId) { await
    this.assetRepository.update({ id, duplicateId: null }) }], as the
    computation of [assetIds]. *)
Definition detectedAssetIds (asset : Asset) (duplicateAssets : list Candidate)
  : M (list string) :=
  if 0 <? length duplicateAssets then updateDuplicates asset duplicateAssets
  else if truthy (duplicateId (row asset)) then
         assetRepository_update (id asset) None >> ret [id asset]
       else ret [id asset].

Definition handleSearchDuplicates (i : string) : M JobStatus :=
  let! machineLearning := getConfig true in
  if negb (isDuplicateDetectionEnabled machineLearning) then ret SKIPPED else
  let! asset := assetJobRepository_getForSearchDuplicatesJob i in
  match asset with
  | None => ret FAILED
  | Some asset =>
      if truthy (stackId (row asset)) then ret SKIPPED else
      if bool_decide (visibility (row asset) = HIDDEN) then ret SKIPPED else
      if bool_decide (visibility (row asset) = LOCKED) then ret SKIPPED else
      match embedding (row asset) with
      | None | Some EmptyString => ret FAILED
      | Some (String _ _ as asset_embedding) =>
          let! duplicateAssets :=
            duplicateRepository_search
              {| search_assetId := id asset;
                 search_embedding := asset_embedding;
                 search_maxDistance := duplicateDetection_maxDistance machineLearning;
                 search_type := type (row asset);
                 search_userIds := [ownerId (row asset)] |} in
          let! assetIds := detectedAssetIds asset duplicateAssets in
          let! duplicatesDetectedAt := new_Date in
          assetRepository_upsertJobStatus
            ((λ assetId, (assetId, duplicatesDetectedAt)) <$> assetIds) >>
          ret SUCCESS
      end
  end.

(** *** handleQueueSearchDuplicates (scan-all)

    The [for await] loop over the stream, with the local [jobs] array as the
    accumulator; [queueAll] submits [jobs] and resets it to the empty array. *)
Definition queueAll (jobs : list JobItem) : M (list JobItem) :=
  jobRepository_queueAll jobs >> ret [].

Fixpoint forAwait (stream : list string) (jobs : list JobItem) : M (list JobItem) :=
  match stream with
  | [] => ret jobs
  | asset :: rest =>
      let jobs := jobs ++ [{| name := DUPLICATE_DETECTION; data_id := asset |}] in
      if JOBS_ASSET_PAGINATION_SIZE <=? length jobs
      then let! jobs := queueAll jobs in forAwait rest jobs
      else forAwait rest jobs
  end.

Definition handleQueueSearchDuplicates (force : bool) : M JobStatus :=
  let! machineLearning := getConfig false in
  if negb (isDuplicateDetectionEnabled machineLearning) then ret SKIPPED else
  let! stream := assetJobRepository_streamForSearchDuplicates force in
  let! jobs := forAwait stream [] in
  let! jobs := queueAll jobs in
  ret SUCCESS.

End Service.

(** ** Observations on a run *)

(** A present id is an opaque unique token, never the empty string; a
    JavaScript truthiness test on such an id is then a null test. *)
Definition valid_id (x : option string) : Prop := x ≠ Some EmptyString.

(** The deliberate exclusions: stacked, hidden or locked assets. *)
Definition excluded (r : AssetRow) : Prop :=
  stackId r ≠ None ∨ visibility r = HIDDEN ∨ visibility r = LOCKED.

(** The merge operations of a trace and the batches submitted to the job queue. *)
Definition merges (tr : list Call) : list DuplicateMergeOptions :=
  omap (λ c, match c with CMerge o => Some o | _ => None end) tr.

Definition batches (tr : list Call) : list (list JobItem) :=
  omap (λ c, match c with CQueueAll jobs => Some jobs | _ => None end) tr.

Definition nonempty {A} (l : list A) : bool :=
  match l with [] => false | _ => true end.

(** The first group id among the candidates, in discovery order. *)
Definition first_candidate_group (cs : list Candidate) : option string :=
  head (omap cand_duplicateId cs).

(** ⌈n/k⌉ *)
Definition ceil_div (n k : nat) : nat := (n + k - 1) / k.

Definition scanJob (assetId : string) : JobItem :=
  {| name := DUPLICATE_DETECTION; data_id := assetId |}.

(** Modelled from the spec: [duplicateRepository.search] is not among the
    sources; the spec gives it as returning the candidate matches "with their
    current duplicate-group id (if any)". Which assets match is decided by
    [similar] from the query and the table with the group ids blanked: the
    embeddings, types and owners, not the grouping. *)
Definition candidatesOf (db : gmap string AssetRow) (ids : list string)
  : list Candidate :=
  omap (λ i, (λ r, {| cand_assetId := i; cand_duplicateId := duplicateId r |})
               <$> db !! i) ids.

Abbreviation blank := (set_duplicateId None).

Definition storeSearch (similar : DuplicateSearch → gmap string AssetRow → list string)
    (q : DuplicateSearch) (db : gmap string AssetRow) : list Candidate :=
  candidatesOf db (similar q (blank <$> db)).

(** ** The run of scan-one up to the similarity search *)

(** The asset passes every guard of [handleSearchDuplicates]: the feature is
    on, the row exists, it is not excluded and it has an embedding. *)
Definition scannable (w : World) (i : string) (r : AssetRow) (e : string) : Prop :=
  isDuplicateDetectionEnabled (machineLearning w) = true
  ∧ assets w !! i = Some r
  ∧ truthy (stackId r) = false
  ∧ visibility r ≠ HIDDEN
  ∧ visibility r ≠ LOCKED
  ∧ embedding r = Some e
  ∧ e ≠ EmptyString.

Definition searchQuery (w : World) (i : string) (r : AssetRow) (e : string)
  : DuplicateSearch :=
  {| search_assetId := i;
     search_embedding := e;
     search_maxDistance := duplicateDetection_maxDistance (machineLearning w);
     search_type := type r;
     search_userIds := [ownerId r] |}.

(** The bookkeeping stamp, as a function on worlds. *)
Definition stamped (items : list (string * Date)) (w : World) : World :=
  (assetRepository_upsertJobStatus items w).1.2.

(** ** A small library, for running the service on concrete input *)

Module Example.
Local Open Scope string_scope.

Definition photo (v : AssetVisibility) (stack emb dup : option string) : AssetRow :=
  {| ownerId := "owner"; type := "IMAGE"; visibility := v;
     stackId := stack; embedding := emb; duplicateId := dup |}.

(** [a] is ungrouped, [b] is in G1, [c] and [d] are in G2, [g] is in G1 with
    nothing near it, [u] is ungrouped with nothing near it, [p] and [q] are
    both in G3 and near each other; [s], [h], [l] are stacked, hidden and
    locked, and have no embedding; [n] has no embedding. *)
Definition library : gmap string AssetRow :=
  list_to_map
    [("a", photo NORMAL None (Some "e1") None);
     ("b", photo NORMAL None (Some "e1") (Some "G1"));
     ("c", photo NORMAL None (Some "e1") (Some "G2"));
     ("d", photo NORMAL None (Some "e2") (Some "G2"));
     ("g", photo NORMAL None (Some "e3") (Some "G1"));
     ("u", photo NORMAL None (Some "e4") None);
     ("p", photo NORMAL None (Some "e5") (Some "G3"));
     ("q", photo NORMAL None (Some "e5") (Some "G3"));
     ("s", photo NORMAL (Some "stack-1") None None);
     ("h", photo HIDDEN None None None);
     ("l", photo LOCKED None None None);
     ("n", photo NORMAL None None None)].

Definition world (on : bool) : World :=
  {| machineLearning :=
       {| detectionEnabled := on; duplicateDetection_maxDistance := 1 # 100 |};
     assets := library; jobStatus := ∅; queue := []; uuids := 0; clock := 7 |}.

Definition uuid (n : nat) : string := "uuid-" +:+ pretty n.

(** Assets with embedding [e1] are near one another, and so are those with
    [e5]; the others are near nothing. *)
Definition near (q : DuplicateSearch) (db : gmap string AssetRow) : list string :=
  if bool_decide (search_embedding q = "e1")
  then filter (λ i, i ≠ search_assetId q) ["a"; "b"; "c"]
  else if bool_decide (search_embedding q = "e5")
  then filter (λ i, i ≠ search_assetId q) ["p"; "q"]
  else [].

Definition search := storeSearch near.

Definition stream (force : bool) (db : gmap string AssetRow) : list string :=
  ["a"; "b"; "c"; "d"].
End Example.

(** * User administration service (UserAdminService)

    The operations of [UserAdminService] that carry logic of their own:
    [findOrFail], [get], [create], [update], [delete] and [restore]. The
    repositories are an interface over a store the service does not look
    into; an operation either returns or throws an HTTP exception, and the
    calls it made up to then are kept. *)

Module UserAdminService.

Inductive HttpException :=
  | BadRequestException (message : string)
  | ForbiddenException (message : string).

(** An optional JavaScript value: [undefined], [null] or a value. *)
Inductive js (A : Type) := undefined | null | value (a : A).
Arguments undefined {A}.
Arguments null {A}.
Arguments value {A} a.

(** [if (s)] on a string and [if (n)] on a number. *)
Definition truthy_string (x : js string) : bool :=
  match x with
  | value (String _ _) => true
  | _ => false
  end.

Definition truthy_number (x : js Z) : bool :=
  match x with
  | value n => negb (n =? 0)%Z
  | _ => false
  end.

Definition truthy_boolean (x : js bool) : bool :=
  match x with
  | value b => b
  | _ => false
  end.

(** [stored !== submitted], for a stored [number | null]. *)
Definition differs (stored : option Z) (submitted : js Z) : bool :=
  match stored, submitted with
  | Some m, value n => negb (m =? n)%Z
  | None, null => false
  | _, _ => true
  end.

(** The members of [UserStatus] and [JobName] the service names. *)
Inductive UserStatus := REMOVING | DELETED.

Inductive JobName := USER_DELETION.

(** A user row, with the fields the service reads. *)
Record User := {
  id : string;
  isAdmin : bool;
  quotaSizeInBytes : option Z;
  shouldChangePassword : bool;
}.

Record AuthDto := { user : User }.

Record UserFindOptions := { withDeleted : js bool }.

(** The fields of the DTOs the service reads or rewrites; [rest] stands for
    the fields it passes on untouched. *)
Record UserAdminUpdateDto := {
  dto_isAdmin : js bool;
  dto_quotaSizeInBytes : js Z;
  dto_email : js string;
  dto_storageLabel : js string;
  dto_password : js string;
  dto_pinCode : js string;
  dto_rest : list (string * string);
}.

Record UserAdminCreateDto := {
  notify : js bool;
  password : js string;
  rest : list (string * string);
}.

Record UserAdminDeleteDto := { force : js bool }.

(** What [userRepository.update] is handed: [{ ...dto, updatedAt }] by
    [update], [{ status, deletedAt }] by [delete]. *)
Inductive UserUpdate :=
  | UpdateFields (dto : UserAdminUpdateDto) (updatedAt : Date)
  | UpdateStatus (status : UserStatus) (deletedAt : Date).

Record SignupEvent := {
  event_notify : bool;
  event_id : string;
  event_tempPassword : js string;
}.

Record JobItem := { name : JobName; data_id : string; data_force : js bool }.

(** The calls the service makes, in order. *)
Inductive Call :=
  | GetConfig (withCache : bool)
  | Get (i : string) (options : UserFindOptions)
  | GetByEmail (email : string)
  | GetByStorageLabel (storageLabel : string)
  | SyncUsage (i : string)
  | Update (i : string) (fields : UserUpdate)
  | Restore (i : string)
  | SoftDeleteAll (i : string)
  | RestoreAll (i : string)
  | HashBcrypt (plain : string) (rounds : nat)
  | CreateUser (password : js string) (rest : list (string * string))
  | Emit (event : SignupEvent)
  | Queue (job : JobItem).

(** The collaborators, outside the sources, as an interface over a store
    [Db]: reads look the store up, writes change it and may return a row. *)
Class Repositories (Db : Type) := {
  SALT_ROUNDS : nat;
  oauth_enabled : Db → bool;
  now : Db → Date;
  userRepository_get : string → UserFindOptions → Db → option User;
  userRepository_getByEmail : string → Db → option User;
  userRepository_getByStorageLabel : string → Db → option User;
  userRepository_syncUsage : string → Db → Db;
  userRepository_update : string → UserUpdate → Db → User * Db;
  userRepository_restore : string → Db → User * Db;
  albumRepository_softDeleteAll : string → Db → Db;
  albumRepository_restoreAll : string → Db → Db;
  cryptoRepository_hashBcrypt : string → nat → string;
  baseService_createUser :
    js string → list (string * string) → Db → (HttpException + User) * Db;
}.

(** A computation returns or throws, changes the store and emits calls. *)
Definition M (Db A : Type) : Type := Db → (HttpException + A) * Db * list Call.

Definition ret {Db A} (a : A) : M Db A := λ db, (inr a, db, []).

Definition throw {Db A} (e : HttpException) : M Db A := λ db, (inl e, db, []).

Definition bind {Db A B} (m : M Db A) (f : A → M Db B) : M Db B :=
  λ db, match m db with
        | (inl e, db1, t1) => (inl e, db1, t1)
        | (inr a, db1, t1) =>
            let '(b, db2, t2) := f a db1 in (b, db2, t1 ++ t2)
        end.

Definition call {Db A} (c : Call) (f : Db → A * Db) : M Db A :=
  λ db, let '(a, db1) := f db in (inr a, db1, [c]).

Definition read {Db A} (c : Call) (f : Db → A) : M Db A :=
  call c (λ db, (f db, db)).

Definition write {Db} (c : Call) (f : Db → Db) : M Db unit :=
  call c (λ db, (tt, f db)).

Definition new_Date `{Repositories Db} : M Db Date := λ db, (inr (now db), db, []).

Declare Scope user_admin_scope.
Notation "'let!' x ':=' m 'in' k" := (bind m (λ x, k))
  (at level 10, x name, m at level 100, k at level 200,
   format "'[v' 'let!'  x  ':='  m  'in' '/' k ']'") : user_admin_scope.
Notation "m '>>' k" := (bind m (λ _, k))
  (at level 100, k at level 200, right associativity,
   format "'[v' m  '>>' '/' k ']'") : user_admin_scope.
Local Open Scope user_admin_scope.

Section Operations.
Context {Db : Type} `{!Repositories Db}.

Definition findOrFail (i : string) (options : UserFindOptions) : M Db User :=
  let! user := read (Get i options) (userRepository_get i options) in
  match user with
  | None => throw (BadRequestException "User not found")
  | Some user => ret user
  end.

Definition get (auth : AuthDto) (i : string) : M Db User :=
  findOrFail i {| withDeleted := value true |}.

Definition create (dto : UserAdminCreateDto) : M Db User :=
  let! oauth := read (GetConfig false) oauth_enabled in
  if negb oauth && negb (truthy_string (password dto))
  then throw (BadRequestException "password is required") else
  let! created :=
    call (CreateUser (password dto) (rest dto))
         (baseService_createUser (password dto) (rest dto)) in
  match created with
  | inl e => throw e
  | inr user =>
      call (Emit {| event_notify := truthy_boolean (notify dto);
                    event_id := id user;
                    event_tempPassword :=
                      if shouldChangePassword user then password dto
                      else undefined |})
           (λ db, (tt, db)) >>
      ret user
  end.

(** [if (duplicate && duplicate.id !== id) throw ...] *)
Definition rejectDuplicate (i : string) (duplicate : option User) (message : string)
  : M Db unit :=
  match duplicate with
  | Some other =>
      if bool_decide (id other ≠ i) then throw (BadRequestException message)
      else ret tt
  | None => ret tt
  end.

(** [if (x) { x = await hashBcrypt(x, SALT_ROUNDS) }] *)
Definition hashed (x : js string) : M Db (js string) :=
  match x with
  | value (String _ _ as plain) =>
      read (HashBcrypt plain SALT_ROUNDS)
           (λ _, value (cryptoRepository_hashBcrypt plain SALT_ROUNDS))
  | _ => ret x
  end.

(** [dto.isAdmin !== undefined && dto.isAdmin !== auth.user.isAdmin &&
    auth.user.id === id] *)
Definition changesOwnAdminFlag (auth : AuthDto) (i : string) (dto : UserAdminUpdateDto)
  : bool :=
  match dto_isAdmin dto with
  | undefined => false
  | null => bool_decide (id (user auth) = i)
  | value b => negb (eqb b (isAdmin (user auth))) && bool_decide (id (user auth) = i)
  end.

(** [dto.quotaSizeInBytes && user.quotaSizeInBytes !== dto.quotaSizeInBytes] *)
Definition changesQuota (found : User) (dto : UserAdminUpdateDto) : bool :=
  truthy_number (dto_quotaSizeInBytes dto)
  && differs (quotaSizeInBytes found) (dto_quotaSizeInBytes dto).

(** [if (dto.quotaSizeInBytes && ...) { await this.userRepository.syncUsage(id) }] *)
Definition syncUsageIfQuotaChanges (i : string) (found : User) (dto : UserAdminUpdateDto)
  : M Db unit :=
  if changesQuota found dto
  then write (SyncUsage i) (userRepository_syncUsage i)
  else ret tt.

(** [if (dto.email) { ... getByEmail ... }] and
    [if (dto.storageLabel) { ... getByStorageLabel ... }] *)
Definition checkEmail (i : string) (dto : UserAdminUpdateDto) : M Db unit :=
  match dto_email dto with
  | value (String _ _ as email) =>
      let! duplicate := read (GetByEmail email) (userRepository_getByEmail email) in
      rejectDuplicate i duplicate "Email already in use by another account"
  | _ => ret tt
  end.

Definition checkStorageLabel (i : string) (dto : UserAdminUpdateDto) : M Db unit :=
  match dto_storageLabel dto with
  | value (String _ _ as storageLabel) =>
      let! duplicate :=
        read (GetByStorageLabel storageLabel)
             (userRepository_getByStorageLabel storageLabel) in
      rejectDuplicate i duplicate "Storage label already in use by another account"
  | _ => ret tt
  end.

(** [if (dto.storageLabel === '') { dto.storageLabel = null }] *)
Definition storedLabel (x : js string) : js string :=
  match x with
  | value EmptyString => null
  | _ => x
  end.

Definition update (auth : AuthDto) (i : string) (dto : UserAdminUpdateDto) : M Db User :=
  let! found := findOrFail i {| withDeleted := undefined |} in
  if changesOwnAdminFlag auth i dto
  then throw (BadRequestException "Admin status can only be changed by another admin")
  else
  syncUsageIfQuotaChanges i found dto >>
  checkEmail i dto >>
  checkStorageLabel i dto >>
  let! password := hashed (dto_password dto) in
  let! pinCode := hashed (dto_pinCode dto) in
  let storageLabel := storedLabel (dto_storageLabel dto) in
  let! updatedAt := new_Date in
  let fields :=
    UpdateFields
      {| dto_isAdmin := dto_isAdmin dto;
         dto_quotaSizeInBytes := dto_quotaSizeInBytes dto;
         dto_email := dto_email dto;
         dto_storageLabel := storageLabel;
         dto_password := password;
         dto_pinCode := pinCode;
         dto_rest := dto_rest dto |}
      updatedAt in
  call (Update i fields) (userRepository_update i fields).

Definition delete (auth : AuthDto) (i : string) (dto : UserAdminDeleteDto) : M Db User :=
  let! found := findOrFail i {| withDeleted := undefined |} in
  if bool_decide (id (user auth) = i)
  then throw (ForbiddenException "Cannot delete your own account") else
  write (SoftDeleteAll i) (albumRepository_softDeleteAll i) >>
  let status := if truthy_boolean (force dto) then REMOVING else DELETED in
  let! deletedAt := new_Date in
  let! updated :=
    call (Update i (UpdateStatus status deletedAt))
         (userRepository_update i (UpdateStatus status deletedAt)) in
  (if truthy_boolean (force dto)
   then call (Queue {| name := USER_DELETION; data_id := id updated;
                       data_force := force dto |})
             (λ db, (tt, db))
   else ret tt) >>
  ret updated.

Definition restore (auth : AuthDto) (i : string) : M Db User :=
  let! found := findOrFail i {| withDeleted := value true |} in
  write (RestoreAll i) (albumRepository_restoreAll i) >>
  call (Restore i) (userRepository_restore i).

End Operations.

(** A call that stores a row or hashes a secret. *)
Definition stores (c : Call) : bool :=
  match c with
  | Update _ _ | HashBcrypt _ _ => true
  | _ => false
  end.

(** What [hashed] returns: the hash of a non-empty secret, anything else as it is. *)
Definition storedSecret `{Repositories Db} (x : js string) : js string :=
  match x with
  | value (String _ _ as plain) =>
      value (cryptoRepository_hashBcrypt plain SALT_ROUNDS)
  | _ => x
  end.


End UserAdminService.

(** ** More concrete input *)

Module Fresh.
Local Open Scope string_scope.

(** Two ungrouped assets near each other, and nothing else. *)
Definition library : gmap string AssetRow :=
  list_to_map
    [("x", Example.photo NORMAL None (Some "e9") None);
     ("y", Example.photo NORMAL None (Some "e9") None)].

Definition world : World :=
  {| machineLearning :=
       {| detectionEnabled := true; duplicateDetection_maxDistance := 1 # 100 |};
     assets := library; jobStatus := ∅; queue := []; uuids := 4; clock := 9 |}.

Definition near (q : DuplicateSearch) (db : gmap string AssetRow) : list string :=
  filter (λ i, i ≠ search_assetId q) ["x"; "y"].

Definition search := storeSearch near.
End Fresh.

Module UserAdminExample.
Import UserAdminService.
Local Open Scope string_scope.

Definition alice : User :=
  {| id := "alice"; isAdmin := true; quotaSizeInBytes := Some 100%Z;
     shouldChangePassword := false |}.

Definition bob : User :=
  {| id := "bob"; isAdmin := false; quotaSizeInBytes := None;
     shouldChangePassword := true |}.

Definition carol : User :=
  {| id := "carol"; isAdmin := false; quotaSizeInBytes := None;
     shouldChangePassword := true |}.

Definition users : gmap string User :=
  list_to_map [("alice", alice); ("bob", bob)].

(** A store of users by id, in which bob holds the email bob@example.com
    and alice the storage label admin; writes return the row they touch. *)
Definition repositories : Repositories (gmap string User) :=
  {| SALT_ROUNDS := 10;
     oauth_enabled := λ _, false;
     now := λ _, 7;
     userRepository_get := λ i _ db, db !! i;
     userRepository_getByEmail := λ email db,
       if bool_decide (email = "bob@example.com") then db !! "bob" else None;
     userRepository_getByStorageLabel := λ label db,
       if bool_decide (label = "admin") then db !! "alice" else None;
     userRepository_syncUsage := λ _ db, db;
     userRepository_update := λ i _ db, (default carol (db !! i), db);
     userRepository_restore := λ i db, (default carol (db !! i), db);
     albumRepository_softDeleteAll := λ _ db, db;
     albumRepository_restoreAll := λ _ db, db;
     cryptoRepository_hashBcrypt := λ plain _, "bcrypt:" +:+ plain;
     baseService_createUser := λ _ _ db, (inr carol, db) |}.

Definition asAlice : AuthDto := {| user := alice |}.

Definition noChange : UserAdminUpdateDto :=
  {| dto_isAdmin := undefined; dto_quotaSizeInBytes := undefined;
     dto_email := undefined; dto_storageLabel := undefined;
     dto_password := undefined; dto_pinCode := undefined; dto_rest := [] |}.

(** Bob gets a new quota, a new password and an empty storage label. *)
Definition resetBob : UserAdminUpdateDto :=
  {| dto_isAdmin := undefined; dto_quotaSizeInBytes := value 500%Z;
     dto_email := undefined; dto_storageLabel := value EmptyString;
     dto_password := value "secret"; dto_pinCode := undefined; dto_rest := [] |}.

(** Alice asks for bob's email. *)
Definition takeEmail : UserAdminUpdateDto :=
  {| dto_isAdmin := undefined; dto_quotaSizeInBytes := undefined;
     dto_email := value "bob@example.com"; dto_storageLabel := undefined;
     dto_password := value "secret"; dto_pinCode := undefined; dto_rest := [] |}.


Definition newUser (password : js string) : UserAdminCreateDto :=
  {| notify := value true; password := password; rest := [("name", "Carol")] |}.
End UserAdminExample.

(** * Properties *)

(** ** Insertion-ordered sets *)

Lemma Set_add_elem s x y : y ∈ Set_add s x ↔ y ∈ s ∨ y = x.
Proof.
  unfold Set_add. case_bool_decide as Hx.
  - split; [by left | intros [?| ->]; done].
  - rewrite elem_of_app, list_elem_of_singleton. done.
Qed.

Lemma fold_Set_add_elem xs s y : y ∈ fold_left Set_add xs s ↔ y ∈ s ∨ y ∈ xs.
Proof.
  revert s. induction xs as [|x xs IH]; intros s; simpl.
  - rewrite elem_of_nil. tauto.
  - rewrite IH, Set_add_elem, elem_of_cons. tauto.
Qed.

Lemma new_Set_elem xs y : y ∈ new_Set xs ↔ y ∈ xs.
Proof. unfold new_Set. rewrite fold_Set_add_elem, elem_of_nil. tauto. Qed.

Lemma Set_add_NoDup s x : NoDup s → NoDup (Set_add s x).
Proof.
  intros Hs. unfold Set_add. case_bool_decide as Hx; [done|].
  apply NoDup_app. split_and!; [done| |apply NoDup_singleton].
  intros y Hy ->%list_elem_of_singleton. done.
Qed.

Lemma fold_Set_add_NoDup xs s : NoDup s → NoDup (fold_left Set_add xs s).
Proof. revert s. induction xs; simpl; auto using Set_add_NoDup. Qed.

Lemma new_Set_NoDup xs : NoDup (new_Set xs).
Proof. apply fold_Set_add_NoDup, NoDup_nil_2. Qed.

Lemma fold_Set_add_head xs s x s' :
  s = x :: s' → head (fold_left Set_add xs s) = Some x.
Proof.
  revert s s'. induction xs as [|y xs IH]; intros s s' ->; simpl; [done|].
  unfold Set_add. case_bool_decide; eapply IH; simpl; done.
Qed.

Lemma new_Set_head xs : head (new_Set xs) = head xs.
Proof.
  destruct xs as [|x xs]; [done|]. unfold new_Set. simpl.
  by eapply fold_Set_add_head.
Qed.

Lemma new_Set_nil xs : new_Set xs = [] ↔ xs = [].
Proof.
  split; [|by intros ->].
  intros H. pose proof (new_Set_head xs) as Hh. rewrite H in Hh.
  by destruct xs.
Qed.

(** On valid ids the truthiness filter keeps exactly the non-null ids. *)
Lemma truthy_valid x : valid_id x → truthy x = bool_decide (x ≠ None).
Proof. unfold valid_id. destruct x as [[|]|]; simpl; intros; try done. Qed.

Lemma truthy_duplicateIds_valid cs :
  Forall (λ c, valid_id (cand_duplicateId c)) cs →
  truthy_duplicateIds cs = omap cand_duplicateId cs.
Proof.
  unfold truthy_duplicateIds. induction 1 as [|c cs Hc _ IH]; [done|].
  csimpl. rewrite IH. unfold valid_id in Hc.
  destruct (cand_duplicateId c) as [[|]|]; simpl; done.
Qed.

Lemma truthy_duplicateIds_none cs :
  omap cand_duplicateId cs = [] → truthy_duplicateIds cs = [].
Proof.
  unfold truthy_duplicateIds. induction cs as [|c cs IH]; [done|].
  csimpl. destruct (cand_duplicateId c) as [[|]|]; simpl; done.
Qed.

Section ScanOne.
Variable uuid_source : nat → string.
Variable similaritySearch : DuplicateSearch → gmap string AssetRow → list Candidate.

Local Abbreviation scanOne := (handleSearchDuplicates uuid_source similaritySearch).
Local Abbreviation target_of := (chooseTarget uuid_source).
Local Abbreviation resolve := (detectedAssetIds uuid_source).

(** *** The early returns *)

Lemma scanOne_disabled i w :
  isDuplicateDetectionEnabled (machineLearning w) = false →
  scanOne i w = (SKIPPED, w, []).
Proof.
  intros Hoff. unfold handleSearchDuplicates, bind, getConfig, reads.
  simpl. by rewrite Hoff.
Qed.

Lemma scanOne_missing i w :
  isDuplicateDetectionEnabled (machineLearning w) = true →
  assets w !! i = None →
  scanOne i w = (FAILED, w, []).
Proof.
  intros Hon Hno.
  unfold handleSearchDuplicates, bind, getConfig, reads,
    assetJobRepository_getForSearchDuplicatesJob.
  simpl. rewrite Hon. simpl. by rewrite Hno.
Qed.

Lemma scanOne_found i w r :
  isDuplicateDetectionEnabled (machineLearning w) = true →
  assets w !! i = Some r →
  scanOne i w =
    if truthy (stackId r) then (SKIPPED, w, [])
    else if bool_decide (visibility r = HIDDEN) then (SKIPPED, w, [])
    else if bool_decide (visibility r = LOCKED) then (SKIPPED, w, [])
    else match embedding r with
         | None | Some EmptyString => (FAILED, w, [])
         | Some (String _ _ as e) =>
             let q := searchQuery w i r e in
             let cs := similaritySearch q (assets w) in
             let res := resolve {| id := i; row := r |} cs w in
             let items := (λ a, (a, clock res.1.2)) <$> res.1.1 in
             (SUCCESS, stamped items res.1.2,
              CSearch q cs :: res.2 ++ [CUpsertJobStatus items])
         end.
Proof.
  intros Hon Hr.
  unfold handleSearchDuplicates, bind, getConfig, reads,
    assetJobRepository_getForSearchDuplicatesJob, duplicateRepository_search,
    new_Date, stamped, searchQuery.
  simpl. rewrite Hon. simpl. rewrite Hr. simpl.
  destruct (truthy (stackId r)); [done|].
  do 2 (case_bool_decide; [done|]).
  destruct (embedding r) as [[|c e]|]; [done| |done].
  simpl. destruct (resolve _ _ w) as [[ids w1] t1]. simpl.
  done.
Qed.

Lemma scanOne_scannable i w r e :
  scannable w i r e →
  scanOne i w =
    let q := searchQuery w i r e in
    let cs := similaritySearch q (assets w) in
    let res := resolve {| id := i; row := r |} cs w in
    let items := (λ a, (a, clock res.1.2)) <$> res.1.1 in
    (SUCCESS, stamped items res.1.2,
     CSearch q cs :: res.2 ++ [CUpsertJobStatus items]).
Proof.
  intros (Hon & Hr & Hst & Hh & Hl & He & Hne).
  rewrite (scanOne_found i w r Hon Hr), Hst, !bool_decide_eq_false_2, He by done.
  by destruct e.
Qed.

(** *** The calls of the merge step *)

Lemma target_of_calls own ds w c :
  c ∈ (target_of own ds w).2 → c = CRandomUUID (uuid_source (uuids w)).
Proof.
  destruct own as [g|]; [|destruct ds as [|g rest]]; simpl;
    rewrite ?elem_of_nil, ?list_elem_of_singleton; done.
Qed.

Lemma target_of_assets own ds w : assets (target_of own ds w).1.2 = assets w.
Proof. by destruct own as [g|]; [|destruct ds as [|g rest]]. Qed.

Lemma updateDuplicates_run a cs w :
  updateDuplicates uuid_source a cs w =
    let ch := target_of (duplicateId (row a)) (new_Set (truthy_duplicateIds cs)) w in
    let o := {| targetId := ch.1.1.1;
                assetIds := other_assetIds ch.1.1.1 cs ++ [id a];
                sourceIds := ch.1.1.2 |} in
    (assetIds o,
     with_assets (map_imap (λ i r, Some (merge_row o i r))) ch.1.2,
     ch.2 ++ [CMerge o]).
Proof.
  unfold updateDuplicates, bind, ret, duplicateRepository_merge.
  destruct (target_of _ _ w) as [[[g ds] w1] t1]. simpl.
  done.
Qed.

Lemma resolve_found a cs w :
  cs ≠ [] → resolve a cs w = updateDuplicates uuid_source a cs w.
Proof. unfold detectedAssetIds. by destruct cs. Qed.

Lemma resolve_none a w :
  resolve a [] w =
    if truthy (duplicateId (row a))
    then ([id a], with_assets (alter (set_duplicateId None) (id a)) w,
          [CUpdate (id a) None])
    else ([id a], w, []).
Proof. unfold detectedAssetIds. simpl. by destruct (truthy _). Qed.

Lemma resolve_no_search a cs w q cs' : CSearch q cs' ∉ (resolve a cs w).2.
Proof.
  destruct cs as [|c cs].
  - rewrite resolve_none. destruct (truthy _); simpl;
      rewrite ?elem_of_nil, ?list_elem_of_singleton; naive_solver.
  - rewrite resolve_found, updateDuplicates_run by done. simpl.
    rewrite elem_of_app, list_elem_of_singleton.
    intros [H%target_of_calls|H]; done.
Qed.

(** A run that reached the similarity search passed every guard, and the
    candidates it saw are the search result on the table as it was. *)
Lemma scanOne_guarded i w st w' tr q cs :
  scanOne i w = (st, w', tr) →
  CSearch q cs ∈ tr →
  ∃ r e, scannable w i r e
         ∧ q = searchQuery w i r e
         ∧ cs = similaritySearch q (assets w).
Proof.
  destruct (isDuplicateDetectionEnabled (machineLearning w)) eqn:Hon;
    [|rewrite scanOne_disabled by done; intros [= <- <- <-] ?%elem_of_nil; done].
  destruct (assets w !! i) as [r|] eqn:Hr;
    [|rewrite scanOne_missing by done; intros [= <- <- <-] ?%elem_of_nil; done].
  rewrite (scanOne_found i w r Hon Hr).
  destruct (truthy (stackId r)) eqn:Hst;
    [intros [= <- <- <-] ?%elem_of_nil; done|].
  case_bool_decide as Hh; [intros [= <- <- <-] ?%elem_of_nil; done|].
  case_bool_decide as Hl; [intros [= <- <- <-] ?%elem_of_nil; done|].
  destruct (embedding r) as [[|c e]|] eqn:He;
    try (intros [= <- <- <-] ?%elem_of_nil; done).
  simpl. intros [= <- <- <-] Hin.
  exists r, (String c e). unfold scannable. split_and!; try done.
  all: apply elem_of_cons in Hin as [[= -> ->]|Hin]; [done|].
  all: apply elem_of_app in Hin as [Hin|Hin%list_elem_of_singleton]; [|done].
  all: by apply resolve_no_search in Hin.
Qed.

End ScanOne.

Section ScanOneClaims.
Variable uuid_source : nat → string.
Variable similaritySearch : DuplicateSearch → gmap string AssetRow → list Candidate.

Local Abbreviation scanOne := (handleSearchDuplicates uuid_source similaritySearch).
Local Abbreviation target_of := (chooseTarget uuid_source).
Local Abbreviation resolve := (detectedAssetIds uuid_source).

Lemma merges_app t1 t2 : merges (t1 ++ t2) = merges t1 ++ merges t2.
Proof. apply omap_app. Qed.

Lemma target_of_no_merge own ds w : merges (target_of own ds w).2 = [].
Proof. by destruct own as [g|]; [|destruct ds as [|g rest]]. Qed.

Lemma target_of_clock own ds w : clock (target_of own ds w).1.2 = clock w.
Proof. by destruct own as [g|]; [|destruct ds as [|g rest]]. Qed.

(** A run that found candidates issues exactly one merge, with the target
    that [chooseTarget] picks and the ids that [updateDuplicates] collects. *)
Lemma scanOne_merge i w st w' tr q cs :
  scanOne i w = (st, w', tr) →
  CSearch q cs ∈ tr →
  cs ≠ [] →
  ∃ r, assets w !! i = Some r ∧
    let ch := target_of (duplicateId r) (new_Set (truthy_duplicateIds cs)) w in
    let o := {| targetId := ch.1.1.1;
                assetIds := other_assetIds ch.1.1.1 cs ++ [i];
                sourceIds := ch.1.1.2 |} in
    st = SUCCESS
    ∧ merges tr = [o]
    ∧ tr = CSearch q cs :: ch.2
           ++ [CMerge o; CUpsertJobStatus ((λ a, (a, clock w)) <$> assetIds o)].
Proof.
  intros Hrun Hin Hcs.
  destruct (scanOne_guarded _ _ _ _ _ _ _ _ _ Hrun Hin) as (r & e & Hok & -> & Hres).
  exists r. split; [apply Hok|].
  rewrite (scanOne_scannable _ _ i w r e Hok) in Hrun.
  cbv zeta in Hrun. rewrite <- Hres in Hrun.
  rewrite resolve_found, updateDuplicates_run in Hrun by done.
  simpl in Hrun. injection Hrun as <- <- <-. clear Hin.
  rewrite target_of_clock. intros ch o. split_and!; [done| |].
  - change (CSearch ?q ?c :: ?t) with ([CSearch q c] ++ t).
    rewrite !merges_app, target_of_no_merge. done.
  - by rewrite <- app_assoc.
Qed.

(** C1. Target precedence of the cluster merge: a run of scan-one whose
    similarity search returns candidates issues one merge, whose target is
    the scanned asset's own group id when it has one (whatever groups the
    candidates reference); otherwise the first candidate group id in
    discovery order when there is one; otherwise the id drawn from the
    random generator in this run. *)
Theorem merge_target_precedence i w st w' tr q cs :
  handleSearchDuplicates uuid_source similaritySearch i w = (st, w', tr) →
  CSearch q cs ∈ tr →
  cs ≠ [] →
  ∃ r o, assets w !! i = Some r ∧ merges tr = [o]
    ∧ (∀ G, duplicateId r = Some G → targetId o = G)
    ∧ (duplicateId r = None →
       Forall (λ c, valid_id (cand_duplicateId c)) cs →
       ∀ g, first_candidate_group cs = Some g → targetId o = g)
    ∧ (duplicateId r = None →
       first_candidate_group cs = None →
       targetId o = uuid_source (uuids w) ∧ CRandomUUID (targetId o) ∈ tr).
Proof.
  intros Hrun Hin Hcs.
  destruct (scanOne_merge _ _ _ _ _ _ _ Hrun Hin Hcs) as (r & Hr & _ & Hm & Htr).
  eexists r, _. split_and!; [done|exact Hm|..]; simpl.
  - by intros G ->.
  - intros -> Hvalid g Hfirst. unfold first_candidate_group in Hfirst.
    rewrite <- truthy_duplicateIds_valid, <- new_Set_head in Hfirst by done.
    by destruct (new_Set _) as [|g' rest]; simplify_eq/=.
  - intros Hnone Hfirst. unfold first_candidate_group in Hfirst.
    rewrite Htr, Hnone.
    assert (new_Set (truthy_duplicateIds cs) = []) as ->.
    { apply new_Set_nil, truthy_duplicateIds_none.
      by destruct (omap _ cs). }
    simpl. split; [done|]. apply list_elem_of_further, list_elem_of_here.
Qed.

(** C4. The asset ids handed to the merge for reassignment are exactly the
    candidates whose current group id differs from the target, followed by
    the scanned asset's own id, which is always there. *)
Theorem merge_reassigned_asset_ids i w st w' tr q cs :
  handleSearchDuplicates uuid_source similaritySearch i w = (st, w', tr) →
  CSearch q cs ∈ tr →
  cs ≠ [] →
  ∃ o, merges tr = [o]
    ∧ i ∈ assetIds o
    ∧ ∀ x, x ∈ assetIds o ↔
           x = i ∨ ∃ c, c ∈ cs ∧ cand_assetId c = x
                        ∧ cand_duplicateId c ≠ Some (targetId o).
Proof.
  intros Hrun Hin Hcs.
  destruct (scanOne_merge _ _ _ _ _ _ _ Hrun Hin Hcs) as (r & Hr & _ & Hm & _).
  eexists. split; [exact Hm|]. simpl. split; [set_solver|].
  intros x. rewrite elem_of_app, list_elem_of_singleton.
  unfold other_assetIds. rewrite list_elem_of_fmap.
  setoid_rewrite list_elem_of_filter. split.
  - intros [(c & -> & Hne & Hc)| ->]; [right; by exists c|by left].
  - intros [->|(c & Hc & <- & Hne)]; [by right|left; by exists c].
Qed.

(** C6. No-candidate detachment: when the search returns nothing and the
    scanned asset is in group [G], the run succeeds with one clear of that
    asset's group id and the bookkeeping stamp as its only writes (no merge);
    the asset's group id becomes absent and every other row of the table is
    as before. *)
Theorem no_candidate_detachment i w st w' tr q r G :
  handleSearchDuplicates uuid_source similaritySearch i w = (st, w', tr) →
  CSearch q [] ∈ tr →
  assets w !! i = Some r →
  duplicateId r = Some G →
  valid_id (Some G) →
  st = SUCCESS
  ∧ tr = [CSearch q []; CUpdate i None; CUpsertJobStatus [(i, clock w)]]
  ∧ assets w' !! i = Some (set_duplicateId None r)
  ∧ ∀ j, j ≠ i → assets w' !! j = assets w !! j.
Proof.
  intros Hrun Hin Hr HG Hvalid.
  destruct (scanOne_guarded _ _ _ _ _ _ _ _ _ Hrun Hin) as (r' & e & Hok & -> & Hres).
  rewrite (scanOne_scannable _ _ i w r' e Hok) in Hrun.
  destruct Hok as (_ & Hr' & _). simplify_eq.
  cbv zeta in Hrun. rewrite <- Hres, resolve_none in Hrun.
  simpl in Hrun. rewrite HG, (truthy_valid _ Hvalid) in Hrun.
  simpl in Hrun. injection Hrun as <- <- <-.
  split_and!; [done|done|..]; simpl.
  - by rewrite lookup_alter_eq, Hr.
  - intros j Hj. by rewrite lookup_alter_ne.
Qed.

(** C10. When the search returns nothing and the scanned asset has no group,
    the run succeeds, the asset table is untouched, and the only call after
    the search is the bookkeeping stamp of the scanned asset's id. *)
Theorem no_candidate_no_group_only_stamp i w st w' tr q r :
  handleSearchDuplicates uuid_source similaritySearch i w = (st, w', tr) →
  CSearch q [] ∈ tr →
  assets w !! i = Some r →
  duplicateId r = None →
  st = SUCCESS
  ∧ tr = [CSearch q []; CUpsertJobStatus [(i, clock w)]]
  ∧ assets w' = assets w.
Proof.
  intros Hrun Hin Hr Hnone.
  destruct (scanOne_guarded _ _ _ _ _ _ _ _ _ Hrun Hin) as (r' & e & Hok & -> & Hres).
  rewrite (scanOne_scannable _ _ i w r' e Hok) in Hrun.
  destruct Hok as (_ & Hr' & _). simplify_eq.
  cbv zeta in Hrun. rewrite <- Hres, resolve_none in Hrun.
  simpl in Hrun. rewrite Hnone in Hrun.
  simpl in Hrun. by injection Hrun as <- <- <-.
Qed.

(** C7, amended. With the feature enabled, an asset that exists, is not
    stacked, hidden or locked, and has no embedding makes scan-one fail
    without calling any repository: the world is unchanged. *)
Theorem missing_embedding_fails i w r :
  isDuplicateDetectionEnabled (machineLearning w) = true →
  assets w !! i = Some r →
  stackId r = None →
  visibility r ≠ HIDDEN →
  visibility r ≠ LOCKED →
  embedding r = None →
  handleSearchDuplicates uuid_source similaritySearch i w = (FAILED, w, []).
Proof.
  intros Hon Hr Hst Hh Hl He.
  by rewrite (scanOne_found _ _ i w r Hon Hr), Hst, !bool_decide_eq_false_2, He.
Qed.

Lemma excluded_skipped i w r :
  isDuplicateDetectionEnabled (machineLearning w) = true →
  assets w !! i = Some r →
  excluded r →
  valid_id (stackId r) →
  scanOne i w = (SKIPPED, w, []).
Proof.
  intros Hon Hr Hex Hvalid. rewrite (scanOne_found _ _ i w r Hon Hr).
  rewrite (truthy_valid _ Hvalid).
  destruct Hex as [Hst|[Hh|Hl]].
  - by rewrite bool_decide_eq_true_2.
  - case_bool_decide; [done|]. by rewrite bool_decide_eq_true_2.
  - do 2 (case_bool_decide; [done|]). by rewrite bool_decide_eq_true_2.
Qed.

(** C8. With the feature enabled, a stacked, hidden or locked asset makes
    scan-one return skipped without calling any repository, whatever the
    similarity search would return: the world is unchanged. *)
Theorem excluded_asset_skipped i w r :
  isDuplicateDetectionEnabled (machineLearning w) = true →
  assets w !! i = Some r →
  excluded r →
  valid_id (stackId r) →
  handleSearchDuplicates uuid_source similaritySearch i w = (SKIPPED, w, []).
Proof. apply excluded_skipped. Qed.

(** C9. The exclusion checks come before the embedding check: a stacked,
    hidden or locked asset that also lacks an embedding is skipped, never
    failed. *)
Theorem exclusion_precedes_embedding_check i w r :
  assets w !! i = Some r →
  excluded r →
  valid_id (stackId r) →
  embedding r = None →
  let run := handleSearchDuplicates uuid_source similaritySearch i w in
  run.1.1 = SKIPPED ∧ run.1.1 ≠ FAILED.
Proof.
  intros Hr Hex Hvalid He. cbv zeta.
  destruct (isDuplicateDetectionEnabled (machineLearning w)) eqn:Hon.
  - by rewrite (excluded_skipped i w r).
  - by rewrite scanOne_disabled.
Qed.

End ScanOneClaims.

(** ** Re-scanning *)

Lemma set_duplicateId_same r d : duplicateId r = d → set_duplicateId d r = r.
Proof. intros <-. by destruct r. Qed.

Lemma lookup_merge o (db : gmap string AssetRow) j :
  map_imap (λ i r, Some (merge_row o i r)) db !! j = merge_row o j <$> db !! j.
Proof. rewrite map_lookup_imap. by destruct (db !! j). Qed.

Lemma merge_row_regroups o j r :
  merge_row o j r = r ∨ merge_row o j r = set_duplicateId (Some (targetId o)) r.
Proof. unfold merge_row. destruct (_ || _); auto. Qed.

Lemma merge_row_listed o j r :
  j ∈ assetIds o → merge_row o j r = set_duplicateId (Some (targetId o)) r.
Proof. intros Hj. unfold merge_row. by rewrite bool_decide_eq_true_2. Qed.

Lemma merge_row_fixed o j r :
  (j ∈ assetIds o → duplicateId r = Some (targetId o)) →
  (∀ g, duplicateId r = Some g → g ∈ sourceIds o → g = targetId o) →
  merge_row o j r = r.
Proof.
  intros Hlisted Hsource. unfold merge_row.
  case_bool_decide as Hj; simpl.
  - by apply set_duplicateId_same, Hlisted.
  - destruct (duplicateId r) as [g|] eqn:Hg; [|done].
    case_bool_decide as Hsrc; [|done].
    apply set_duplicateId_same. rewrite Hg. f_equal. by apply Hsource.
Qed.

Lemma candidatesOf_elem db ids c :
  c ∈ candidatesOf db ids ↔
  ∃ r, cand_assetId c ∈ ids ∧ db !! cand_assetId c = Some r
       ∧ cand_duplicateId c = duplicateId r.
Proof.
  unfold candidatesOf. rewrite list_elem_of_omap. split.
  - intros (j & Hj & Hc). destruct (db !! j) as [r|] eqn:Hr; simplify_eq/=. eauto.
  - intros (r & Hj & Hr & Hd). exists (cand_assetId c). split; [done|].
    rewrite Hr. simpl. destruct c. simpl in *. by rewrite Hd.
Qed.

Lemma candidatesOf_length db db' ids :
  (∀ j, is_Some (db' !! j) ↔ is_Some (db !! j)) →
  length (candidatesOf db' ids) = length (candidatesOf db ids).
Proof.
  intros Hdom. unfold candidatesOf.
  induction ids as [|j ids IH]; [done|]. csimpl.
  specialize (Hdom j).
  destruct (db !! j) as [r|], (db' !! j) as [r'|]; simpl; try by rewrite IH.
  - destruct Hdom as [_ Hdom]. by destruct Hdom.
  - destruct Hdom as [Hdom _]. by destruct Hdom.
Qed.

Lemma other_assetIds_settled t cs :
  (∀ c, c ∈ cs → cand_duplicateId c = Some t) → other_assetIds t cs = [].
Proof.
  unfold other_assetIds. induction cs as [|c cs IH]; intros Hall; [done|].
  rewrite filter_cons_False.
  - apply IH. intros c' Hc'. apply Hall. by right.
  - intros Hne. apply Hne, Hall. by left.
Qed.

Section Rescan.
Variable uuid_source : nat → string.
Variable similaritySearch : DuplicateSearch → gmap string AssetRow → list Candidate.

Local Abbreviation scanOne := (handleSearchDuplicates uuid_source similaritySearch).

(** Scanning an asset whose candidates are all in its own group already
    leaves the asset table as it is, and draws no fresh id. *)
Lemma settled_scan_keeps_groups i w r e t :
  scannable w i r e →
  duplicateId r = Some t →
  similaritySearch (searchQuery w i r e) (assets w) ≠ [] →
  (∀ c, c ∈ similaritySearch (searchQuery w i r e) (assets w) →
        cand_duplicateId c = Some t) →
  (scanOne i w).1.1 = SUCCESS
  ∧ assets (scanOne i w).1.2 = assets w
  ∧ uuids (scanOne i w).1.2 = uuids w.
Proof.
  intros Hok Hown Hcs Hall.
  rewrite (scanOne_scannable _ _ i w r e Hok). cbv zeta.
  rewrite resolve_found, updateDuplicates_run by done.
  simpl. rewrite Hown. simpl. split_and!; [done| |done].
  set (cs := similaritySearch _ _) in *.
  assert (other_assetIds t cs = []) as ->.
  { by apply other_assetIds_settled. }
  apply map_eq. intros j. rewrite lookup_merge.
  destruct (assets w !! j) as [rj|] eqn:Hj; [simpl; f_equal|done].
  apply merge_row_fixed; simpl.
  - intros ->%list_elem_of_singleton.
    destruct Hok as (_ & Hr & _). by simplify_eq.
  - intros g Hg Hsrc. rewrite new_Set_elem in Hsrc.
    unfold truthy_duplicateIds in Hsrc.
    apply list_elem_of_omap in Hsrc as (c & Hc & Hcg).
    rewrite (Hall c Hc) in Hcg. destruct (truthy _); by simplify_eq.
Qed.

(** Scanning an ungrouped asset that has no candidates changes no row. *)
Lemma lonely_scan_keeps_groups i w r e :
  scannable w i r e →
  truthy (duplicateId r) = false →
  similaritySearch (searchQuery w i r e) (assets w) = [] →
  (scanOne i w).1.1 = SUCCESS
  ∧ assets (scanOne i w).1.2 = assets w
  ∧ uuids (scanOne i w).1.2 = uuids w.
Proof.
  intros Hok Hown Hcs.
  rewrite (scanOne_scannable _ _ i w r e Hok). cbv zeta.
  rewrite Hcs, resolve_none. simpl. by rewrite Hown.
Qed.

End Rescan.

Lemma blank_fields r r' :
  blank r' = blank r →
  ownerId r' = ownerId r ∧ type r' = type r ∧ visibility r' = visibility r
  ∧ stackId r' = stackId r ∧ embedding r' = embedding r.
Proof. destruct r, r'. unfold set_duplicateId. simpl. by intros [= -> -> -> -> ->]. Qed.

Lemma blank_lookup (db db' : gmap string AssetRow) j :
  blank <$> db' = blank <$> db → blank <$> db' !! j = blank <$> db !! j.
Proof. intros Heq. by rewrite <- !lookup_fmap, Heq. Qed.

Lemma blank_domain (db db' : gmap string AssetRow) j :
  blank <$> db' = blank <$> db → is_Some (db' !! j) ↔ is_Some (db !! j).
Proof.
  intros Heq%(blank_lookup _ _ j).
  destruct (db !! j), (db' !! j); simplify_eq/=; split; intros [? ?]; by eauto.
Qed.

Lemma blank_merge o (db : gmap string AssetRow) :
  blank <$> map_imap (λ i r, Some (merge_row o i r)) db = blank <$> db.
Proof.
  apply map_eq. intros j. rewrite !lookup_fmap, lookup_merge.
  destruct (db !! j) as [r|]; [simpl; f_equal|done].
  by destruct (merge_row_regroups o j r) as [-> | ->].
Qed.

Lemma blank_alter d i (db : gmap string AssetRow) :
  blank <$> alter (set_duplicateId d) i db = blank <$> db.
Proof.
  apply map_eq. intros j. rewrite !lookup_fmap.
  destruct (decide (i = j)) as [->|Hne].
  - rewrite lookup_alter_eq. by destruct (db !! j).
  - by rewrite lookup_alter_ne.
Qed.

Section Idempotence.
Variable uuid_source : nat → string.
Variable similar : DuplicateSearch → gmap string AssetRow → list string.

Local Abbreviation scanOne := (handleSearchDuplicates uuid_source (storeSearch similar)).
Local Abbreviation target_of := (chooseTarget uuid_source).

Lemma target_of_config own ds w :
  machineLearning (target_of own ds w).1.2 = machineLearning w.
Proof. by destruct own as [g|]; [|destruct ds as [|g rest]]. Qed.

(** What the second run sees: after a regrouping of the table the asset
    still passes the guards, the query is the same and so is the list of
    matching ids. *)
Lemma rescan_guards w w2 i r e :
  scannable w i r e →
  machineLearning w2 = machineLearning w →
  blank <$> assets w2 = blank <$> assets w →
  ∃ r2, assets w2 !! i = Some r2
    ∧ blank r2 = blank r
    ∧ scannable w2 i r2 e
    ∧ searchQuery w2 i r2 e = searchQuery w i r e
    ∧ storeSearch similar (searchQuery w2 i r2 e) (assets w2)
      = candidatesOf (assets w2) (similar (searchQuery w i r e) (blank <$> assets w)).
Proof.
  intros (Hon & Hr & Hst & Hh & Hl & He & Hne) Hml Hdb.
  pose proof (blank_lookup _ _ i Hdb) as Hi. rewrite Hr in Hi.
  destruct (assets w2 !! i) as [r2|] eqn:Hr2; [|done].
  change (Some (blank r2) = Some (blank r)) in Hi. apply (inj Some) in Hi.
  destruct (blank_fields _ _ Hi) as (Ho & Ht & Hv & Hs & Hemb).
  exists r2. split_and!; [done|done| | |].
  - unfold scannable. by rewrite Hml, Hv, Hs, Hemb.
  - unfold searchQuery. by rewrite Hml, Ht, Ho.
  - unfold storeSearch, searchQuery. by rewrite Hml, Ht, Ho, Hdb.
Qed.

Lemma candidatesOf_empty (db db' : gmap string AssetRow) ids :
  blank <$> db' = blank <$> db →
  candidatesOf db ids = [] → candidatesOf db' ids = [].
Proof.
  intros Hdb Hnil. apply length_zero_iff_nil.
  rewrite (candidatesOf_length db db'), Hnil; [done|].
  intros j. by apply blank_domain.
Qed.

(** C3. Scan-one is idempotent: a second run on the state the first one
    left, the similarity search matching the same assets and reporting
    their group ids as they are by then, returns the same status, leaves
    every row of the asset table as the first run left it, and draws no
    fresh group id. *)
Theorem scan_one_idempotent i w :
  let first := handleSearchDuplicates uuid_source (storeSearch similar) i w in
  let second := handleSearchDuplicates uuid_source (storeSearch similar) i first.1.2 in
  second.1.1 = first.1.1
  ∧ assets second.1.2 = assets first.1.2
  ∧ uuids second.1.2 = uuids first.1.2.
Proof.
  cbv zeta.
  destruct (isDuplicateDetectionEnabled (machineLearning w)) eqn:Hon;
    [|rewrite (scanOne_disabled uuid_source (storeSearch similar) i w Hon); simpl;
      by rewrite (scanOne_disabled uuid_source (storeSearch similar) i w Hon)].
  destruct (assets w !! i) as [r|] eqn:Hr;
    [|rewrite (scanOne_missing uuid_source (storeSearch similar) i w Hon Hr); simpl;
      by rewrite (scanOne_missing uuid_source (storeSearch similar) i w Hon Hr)].
  pose proof (scanOne_found uuid_source (storeSearch similar) i w r Hon Hr) as Hrun.
  destruct (truthy (stackId r)) eqn:Hst;
    [rewrite Hrun; simpl; by rewrite Hrun|].
  destruct (bool_decide (visibility r = HIDDEN)) eqn:Hh;
    [rewrite Hrun; simpl; by rewrite Hrun|].
  destruct (bool_decide (visibility r = LOCKED)) eqn:Hl;
    [rewrite Hrun; simpl; by rewrite Hrun|].
  destruct (embedding r) as [[|c e']|] eqn:He;
    try (rewrite Hrun; simpl; by rewrite Hrun).
  clear Hrun. apply bool_decide_eq_false in Hh, Hl.
  assert (scannable w i r (String c e')) as Hok by done.
  rewrite (scanOne_scannable uuid_source (storeSearch similar) i w r _ Hok). cbv zeta.
  set (q := searchQuery w i r (String c e')).
  assert (storeSearch similar q (assets w)
          = candidatesOf (assets w) (similar q (blank <$> assets w))) as Hcs by done.
  destruct (storeSearch similar q (assets w)) as [|c0 cs0] eqn:Hfound.
  - rewrite resolve_none. cbn [id row].
    destruct (truthy (duplicateId r)) eqn:Hown; cbn [fst snd].
    + match goal with |- context [scanOne i ?w2] =>
        destruct (rescan_guards w w2 i r _ Hok eq_refl (blank_alter _ _ _))
          as (r2 & Hr2 & Hb & Hok2 & Hq & Hs);
        apply (lonely_scan_keeps_groups uuid_source (storeSearch similar)
                 i w2 r2 _ Hok2) end.
      * simpl in Hr2. rewrite lookup_alter_eq, Hr in Hr2. by simplify_eq/=.
      * rewrite Hs. by eapply candidatesOf_empty; [apply blank_alter|].
    + match goal with |- context [scanOne i ?w2] =>
        apply (lonely_scan_keeps_groups uuid_source (storeSearch similar)
                 i w2 r _ Hok Hown Hfound) end.
  - rewrite resolve_found, updateDuplicates_run by done.
    cbn [fst snd id row assetIds].
    set (ch := target_of (duplicateId r) (new_Set (truthy_duplicateIds (c0 :: cs0))) w).
    set (t := ch.1.1.1).
    set (o := {| targetId := t;
                 assetIds := other_assetIds t (c0 :: cs0) ++ [i];
                 sourceIds := ch.1.1.2 |}).
    assert (assets ch.1.2 = assets w) as Hch by apply target_of_assets.
    assert (blank <$> map_imap (λ j rj, Some (merge_row o j rj)) (assets ch.1.2)
            = blank <$> assets w) as Hdb.
    { by rewrite blank_merge, Hch. }
    match goal with |- context [scanOne i ?w2] =>
      destruct (rescan_guards w w2 i r _ Hok (target_of_config _ _ _) Hdb)
        as (r2 & Hr2 & Hb & Hok2 & Hq & Hs);
      apply (settled_scan_keeps_groups uuid_source (storeSearch similar)
               i w2 r2 _ t Hok2) end.
    + simpl in Hr2. rewrite lookup_merge, Hch, Hr in Hr2.
      injection Hr2 as <-. rewrite merge_row_listed; [done|]. set_solver.
    + rewrite Hs. intros Hnil.
      apply (candidatesOf_empty _ (assets w)) in Hnil.
      * fold q in Hnil. by rewrite <- Hcs in Hnil.
      * simpl. by rewrite Hdb.
    + rewrite Hs. intros c' Hc'. fold q in Hc'.
      apply candidatesOf_elem in Hc' as (rj' & Hj & Hrj' & ->).
      simpl in Hrj'. rewrite lookup_merge, Hch in Hrj'.
      destruct (assets w !! cand_assetId c') as [rj|] eqn:Hrj; [|done].
      injection Hrj' as <-.
      destruct (decide (duplicateId rj = Some t)) as [Hsame|Hother].
      * by destruct (merge_row_regroups o (cand_assetId c') rj) as [-> | ->].
      * rewrite merge_row_listed; [done|].
        apply elem_of_app. left. unfold other_assetIds.
        apply list_elem_of_fmap.
        exists {| cand_assetId := cand_assetId c'; cand_duplicateId := duplicateId rj |}.
        split; [done|]. apply list_elem_of_filter. split; [done|].
        rewrite Hcs. apply candidatesOf_elem. by exists rj.
Qed.
End Idempotence.

(** ** Scan-all *)

Lemma ceil_div_floor n k :
  0 < k → ceil_div n k = n / k + (if n mod k =? 0 then 0 else 1).
Proof.
  intros Hk. unfold ceil_div.
  pose proof (Nat.div_mod_eq n k) as Hn.
  pose proof (Nat.mod_upper_bound n k ltac:(lia)) as Hr.
  destruct (Nat.eqb_spec (n mod k) 0) as [H0|H0].
  - symmetry. apply (Nat.div_unique _ _ _ (k - 1)); lia.
  - symmetry. apply (Nat.div_unique _ _ _ (n mod k - 1)); lia.
Qed.

Lemma batches_app t1 t2 : batches (t1 ++ t2) = batches t1 ++ batches t2.
Proof. apply omap_app. Qed.

Lemma batches_cons b t : batches (CQueueAll b :: t) = b :: batches t.
Proof. done. Qed.

Section ScanAll.
Variable JOBS_ASSET_PAGINATION_SIZE : nat.
Variable eligibleAssets : bool → gmap string AssetRow → list string.

Local Abbreviation K := JOBS_ASSET_PAGINATION_SIZE.
Local Abbreviation scanAll := (handleQueueSearchDuplicates K eligibleAssets).

(** The loop: every flushed batch is full, what is left in [jobs] is short
    of the threshold, and nothing is lost or repeated. *)
Lemma forAwait_run stream jobs w :
  0 < K →
  length jobs < K →
  let res := forAwait K stream jobs w in
  res.2 = CQueueAll <$> batches res.2
  ∧ Forall (λ b, length b = K) (batches res.2)
  ∧ length res.1.1 < K
  ∧ concat (batches res.2) ++ res.1.1 = jobs ++ (scanJob <$> stream)
  ∧ assets res.1.2 = assets w.
Proof.
  intros threshold_positive.
  revert jobs w. induction stream as [|a rest IH]; intros jobs w Hlen; simpl.
  - by rewrite app_nil_r.
  - change {| name := DUPLICATE_DETECTION; data_id := a |} with (scanJob a).
    destruct (Nat.leb_spec K (length (jobs ++ [scanJob a]))) as [Hfull|Hshort].
    + rewrite length_app in Hfull. simpl in Hfull.
      unfold bind, queueAll, jobRepository_queueAll. simpl.
      match goal with |- context [forAwait K rest [] ?w1] =>
        pose proof (IH [] w1 threshold_positive) as IH';
        destruct (forAwait K rest [] w1) as [[left w2] t2] end.
      destruct IH' as (Htr & Hfl & Hlt & Hcat & Has).
      cbn [fst snd] in *. rewrite batches_cons. split_and!.
      * by rewrite fmap_cons, <- Htr.
      * constructor; [|done]. rewrite length_app. simpl. lia.
      * done.
      * cbn [concat]. by rewrite <- !app_assoc, Hcat.
      * done.
    + pose proof (IH (jobs ++ [scanJob a]) w Hshort) as IH'.
      destruct IH' as (Htr & Hfl & Hlt & Hcat & Has).
      split_and!; try done. by rewrite Hcat, <- app_assoc.
Qed.

Lemma full_batches_length (bs : list (list JobItem)) :
  Forall (λ b, length b = K) bs → length (concat bs) = length bs * K.
Proof. induction 1 as [|b bs Hb _ IH]; simpl; [done|]. rewrite length_app. lia. Qed.

Lemma full_batches_nonempty (bs : list (list JobItem)) :
  0 < K →
  Forall (λ b, length b = K) bs → filter (λ b, nonempty b = true) bs = bs.
Proof.
  intros threshold_positive. induction 1 as [|b bs Hb _ IH]; [done|].
  rewrite filter_cons_True, IH; [done|]. destruct b; simpl in *; [lia|done].
Qed.

(** C5, amended. With the feature enabled and a threshold K ≥ 1, scan-all
    over N enumerated assets succeeds and calls the job queue ⌊N/K⌋ + 1
    times, only to submit batches; ⌈N/K⌉ of the batches are not empty; and
    the batches, in order, hold one scan-one job per enumerated asset, each
    id once, in the order of enumeration. *)
Theorem scan_all_batching force w st w' tr :
  0 < K →
  isDuplicateDetectionEnabled (machineLearning w) = true →
  handleQueueSearchDuplicates K eligibleAssets force w = (st, w', tr) →
  let stream := eligibleAssets force (assets w) in
  let N := length stream in
  st = SUCCESS
  ∧ tr = CQueueAll <$> batches tr
  ∧ length (batches tr) = N / K + 1
  ∧ length (filter (λ b, nonempty b = true) (batches tr)) = ceil_div N K
  ∧ concat (batches tr) = scanJob <$> stream.
Proof.
  intros threshold_positive Hon Hrun stream N.
  unfold handleQueueSearchDuplicates, bind, getConfig, reads, ret, queueAll,
    assetJobRepository_streamForSearchDuplicates, jobRepository_queueAll in Hrun.
  simpl in Hrun. rewrite Hon in Hrun. simpl in Hrun. fold stream in Hrun.
  pose proof (forAwait_run stream [] w threshold_positive threshold_positive) as Hloop.
  destruct (forAwait K stream [] w) as [[left w1] t1].
  destruct Hloop as (Htr & Hfl & Hlt & Hcat & _). simpl in *.
  injection Hrun as <- <- <-.
  rewrite batches_app. change (batches [CQueueAll left]) with [left].
  assert (length (batches t1) * K + length left = N) as Hsplit.
  { rewrite <- full_batches_length, <- length_app, Hcat by done.
    by rewrite length_fmap. }
  assert (N / K = length (batches t1) ∧ N mod K = length left) as [Hq Hr].
  { split; symmetry.
    - apply (Nat.div_unique _ _ _ (length left)); lia.
    - apply (Nat.mod_unique _ _ (length (batches t1))); lia. }
  split_and!.
  - done.
  - by rewrite fmap_app, <- Htr.
  - rewrite length_app. simpl. lia.
  - rewrite ceil_div_floor, Hq, Hr by done.
    rewrite filter_app, length_app, full_batches_nonempty by done.
    f_equal. by destruct left.
  - rewrite concat_app. simpl. by rewrite app_nil_r.
Qed.

End ScanAll.

(** ** The source groups of a merge *)

Section MergeSources.
Variable uuid_source : nat → string.
Variable similaritySearch : DuplicateSearch → gmap string AssetRow → list Candidate.

Local Abbreviation scanOne := (handleSearchDuplicates uuid_source similaritySearch).

(** When the scanned asset has no group, [shift] takes the target out of
    the list: the sources are the distinct candidate group ids other than
    the target. *)
Lemma merge_sources_ungrouped i w st w' tr q cs :
  scanOne i w = (st, w', tr) →
  CSearch q cs ∈ tr →
  cs ≠ [] →
  ∃ r o, assets w !! i = Some r ∧ merges tr = [o]
    ∧ (duplicateId r = None →
       NoDup (sourceIds o)
       ∧ (targetId o ∉ sourceIds o)
       ∧ ∀ g, g ∈ sourceIds o ↔ g ∈ truthy_duplicateIds cs ∧ g ≠ targetId o).
Proof.
  intros Hrun Hin Hcs.
  destruct (scanOne_merge _ _ _ _ _ _ _ _ _ Hrun Hin Hcs) as (r & Hr & _ & Hm & _).
  eexists r, _. split_and!; [done|exact Hm|]. simpl. intros ->.
  pose proof (new_Set_NoDup (truthy_duplicateIds cs)) as Hnd.
  pose proof (new_Set_elem (truthy_duplicateIds cs)) as Hel.
  destruct (new_Set (truthy_duplicateIds cs)) as [|g0 rest]; simpl.
  - split_and!; [constructor|by intros ?%elem_of_nil|].
    intros g. rewrite <- Hel.
    split; [by intros ?%elem_of_nil|by intros [?%elem_of_nil _]].
  - apply NoDup_cons in Hnd as [Hg0 Hnd]. split_and!; [done|done|].
    intros g. rewrite <- Hel, elem_of_cons. split.
    + intros Hg. split; [by right|]. by intros ->.
    + by intros [[->|Hg] Hne].
Qed.

(** When the scanned asset has a group, nothing is taken out: the sources
    are all the distinct candidate group ids, the target among them as soon
    as one candidate is in the asset's own group. *)
Lemma merge_sources_grouped i w st w' tr q cs :
  scanOne i w = (st, w', tr) →
  CSearch q cs ∈ tr →
  cs ≠ [] →
  ∃ r o, assets w !! i = Some r ∧ merges tr = [o]
    ∧ (∀ G, duplicateId r = Some G →
       targetId o = G
       ∧ sourceIds o = new_Set (truthy_duplicateIds cs)
       ∧ (G ∈ sourceIds o ↔ G ∈ truthy_duplicateIds cs)).
Proof.
  intros Hrun Hin Hcs.
  destruct (scanOne_merge _ _ _ _ _ _ _ _ _ Hrun Hin Hcs) as (r & Hr & _ & Hm & _).
  eexists r, _. split_and!; [done|exact Hm|]. simpl. intros G ->. simpl.
  split_and!; [done|done|apply new_Set_elem].
Qed.

End MergeSources.

(** ** The service on the example library *)

Section Runs.
Import Example.
Local Open Scope string_scope.

Local Abbreviation scanOne := (handleSearchDuplicates uuid search).

(** C2, on the code. Scanning [p], which is in group G3, with candidate [q]
    in the same group: the merge names G3 as the target and as a source. *)
Theorem merge_sources_contain_target :
  merges (handleSearchDuplicates uuid search "p" (world true)).2
  = [{| targetId := "G3"; assetIds := ["p"]; sourceIds := ["G3"] |}].
Proof. vm_compute. reflexivity. Qed.


Local Abbreviation row_a := (photo NORMAL None (Some "e1") None).
Local Abbreviation row_g := (photo NORMAL None (Some "e3") (Some "G1")).
Local Abbreviation row_u := (photo NORMAL None (Some "e4") None).
Local Abbreviation row_n := (photo NORMAL None None None).
Local Abbreviation row_s := (photo NORMAL (Some "stack-1") None None).
Local Abbreviation row_h := (photo HIDDEN None None None).
Local Abbreviation query_a := (searchQuery (world true) "a" row_a "e1").
Local Abbreviation query_g := (searchQuery (world true) "g" row_g "e3").
Local Abbreviation query_u := (searchQuery (world true) "u" row_u "e4").

Local Abbreviation run i := (scanOne i (world true)).

Lemma run_eta {A} (x : A * World * list Call) : x = (x.1.1, x.1.2, x.2).
Proof. by destruct x as [[? ?] ?]. Defined.

(** Target precedence at [a]: ungrouped, candidates [b] (G1) and [c] (G2). *)
Lemma merge_target_precedence_witness :
  search query_a library ≠ []
  ∧ ∃ r o, assets (world true) !! "a" = Some r
      ∧ merges (scanOne "a" (world true)).2 = [o]
      ∧ (∀ G, duplicateId r = Some G → targetId o = G)
      ∧ (duplicateId r = None →
         Forall (λ c, valid_id (cand_duplicateId c)) (search query_a library) →
         ∀ g, first_candidate_group (search query_a library) = Some g → targetId o = g)
      ∧ (duplicateId r = None →
         first_candidate_group (search query_a library) = None →
         targetId o = uuid (uuids (world true))
         ∧ CRandomUUID (targetId o) ∈ (scanOne "a" (world true)).2).
Proof.
  split; [by vm_compute|].
  apply (merge_target_precedence uuid search "a" (world true)
           (run "a").1.1 (run "a").1.2 (run "a").2 query_a).
  - apply run_eta.
  - vm_compute. apply list_elem_of_here.
  - by vm_compute.
Defined.

(** The reassigned ids at [a]. *)
Lemma merge_reassigned_asset_ids_witness :
  search query_a library ≠ []
  ∧ ∃ o, merges (scanOne "a" (world true)).2 = [o]
      ∧ "a" ∈ assetIds o
      ∧ ∀ x, x ∈ assetIds o ↔
             x = "a" ∨ ∃ c, c ∈ search query_a library ∧ cand_assetId c = x
                            ∧ cand_duplicateId c ≠ Some (targetId o).
Proof.
  split; [by vm_compute|].
  apply (merge_reassigned_asset_ids uuid search "a" (world true)
           (run "a").1.1 (run "a").1.2 (run "a").2 query_a).
  - apply run_eta.
  - vm_compute. apply list_elem_of_here.
  - by vm_compute.
Defined.

(** Detachment at [g]: in G1, nothing near it. *)
Lemma no_candidate_detachment_witness :
  search query_g library = []
  ∧ (scanOne "g" (world true)).1.1 = SUCCESS
  ∧ (scanOne "g" (world true)).2
    = [CSearch query_g []; CUpdate "g" None; CUpsertJobStatus [("g", clock (world true))]]
  ∧ assets (scanOne "g" (world true)).1.2 !! "g" = Some (set_duplicateId None row_g)
  ∧ ∀ j, j ≠ "g" →
         assets (scanOne "g" (world true)).1.2 !! j = assets (world true) !! j.
Proof.
  split; [by vm_compute|].
  apply (no_candidate_detachment uuid search "g" (world true)
           (run "g").1.1 (run "g").1.2 (run "g").2 query_g row_g "G1").
  - apply run_eta.
  - vm_compute. apply list_elem_of_here.
  - by vm_compute.
  - reflexivity.
  - by vm_compute.
Defined.

(** The stamp-only run at [u]: ungrouped, nothing near it. *)
Lemma no_candidate_no_group_only_stamp_witness :
  search query_u library = []
  ∧ (scanOne "u" (world true)).1.1 = SUCCESS
  ∧ (scanOne "u" (world true)).2
    = [CSearch query_u []; CUpsertJobStatus [("u", clock (world true))]]
  ∧ assets (scanOne "u" (world true)).1.2 = assets (world true).
Proof.
  split; [by vm_compute|].
  apply (no_candidate_no_group_only_stamp uuid search "u" (world true)
           (run "u").1.1 (run "u").1.2 (run "u").2 query_u row_u).
  - apply run_eta.
  - vm_compute. apply list_elem_of_here.
  - by vm_compute.
  - reflexivity.
Defined.

(** The failed run at [n], the feature on. *)
Lemma missing_embedding_fails_witness :
  scanOne "n" (world true) = (FAILED, world true, []).
Proof.
  apply (missing_embedding_fails uuid search "n" (world true) row_n).
  - reflexivity.
  - by vm_compute.
  - reflexivity.
  - by vm_compute.
  - by vm_compute.
  - reflexivity.
Defined.

(** With the feature off the failure is not reported: at [n] the asset
    exists, is not stacked, hidden or locked and has no embedding, and the
    run is skipped. *)
Lemma missing_embedding_disabled_counterexample :
  assets (world false) !! "n" = Some row_n
  ∧ stackId row_n = None
  ∧ visibility row_n = NORMAL
  ∧ embedding row_n = None
  ∧ handleSearchDuplicates uuid search "n" (world false)
    = (SKIPPED, world false, [])
  ∧ (handleSearchDuplicates uuid search "n" (world false)).1.1 ≠ FAILED.
Proof. split_and!; by vm_compute. Qed.

(** The skipped run at [s], a stacked asset. *)
Lemma excluded_asset_skipped_witness :
  excluded row_s
  ∧ scanOne "s" (world true) = (SKIPPED, world true, []).
Proof.
  assert (excluded row_s) as Hex by (left; by vm_compute).
  split; [exact Hex|].
  apply (excluded_asset_skipped uuid search "s" (world true) row_s).
  - reflexivity.
  - by vm_compute.
  - exact Hex.
  - by vm_compute.
Defined.

(** The skipped run at [h], hidden and without embedding. *)
Lemma exclusion_precedes_embedding_check_witness :
  embedding row_h = None
  ∧ (scanOne "h" (world true)).1.1 = SKIPPED
  ∧ (scanOne "h" (world true)).1.1 ≠ FAILED.
Proof.
  split; [reflexivity|].
  apply (exclusion_precedes_embedding_check uuid search "h" (world true) row_h).
  - by vm_compute.
  - right; left; reflexivity.
  - by vm_compute.
  - reflexivity.
Defined.

Local Abbreviation scanAll K := (handleQueueSearchDuplicates K stream true (world true)).

(** Batching at a threshold of 3 over the four enumerated assets. *)
Lemma scan_all_batching_witness :
  0 < 3
  ∧ (scanAll 3).1.1 = SUCCESS
  ∧ (scanAll 3).2 = CQueueAll <$> batches (scanAll 3).2
  ∧ length (batches (scanAll 3).2) = 4 / 3 + 1
  ∧ length (filter (λ b, nonempty b = true) (batches (scanAll 3).2)) = ceil_div 4 3
  ∧ concat (batches (scanAll 3).2) = scanJob <$> ["a"; "b"; "c"; "d"].
Proof.
  split; [lia|].
  apply (scan_all_batching 3 stream true (world true)
           (scanAll 3).1.1 (scanAll 3).1.2 (scanAll 3).2).
  - lia.
  - reflexivity.
  - apply run_eta.
Defined.

(** The count ⌈N/K⌉ fails at a threshold of 2 over the four enumerated assets:
    two full batches are submitted in the loop and the empty remainder after
    it, three calls where ⌈4/2⌉ = 2. *)
Lemma scan_all_batch_count_counterexample :
  isDuplicateDetectionEnabled (machineLearning (world true)) = true
  ∧ stream true library = ["a"; "b"; "c"; "d"]
  ∧ (handleQueueSearchDuplicates 2 stream true (world true)).2
    = [CQueueAll [scanJob "a"; scanJob "b"];
       CQueueAll [scanJob "c"; scanJob "d"];
       CQueueAll []]
  ∧ length (batches (handleQueueSearchDuplicates 2 stream true (world true)).2)
    ≠ ceil_div (length (stream true library)) 2.
Proof. split_and!; by vm_compute. Qed.
End Runs.

(** * Further properties of the duplicate service *)

(** A call of one kind is not among the calls of other kinds. *)
Ltac no_such_call H :=
  simpl in H;
  repeat (apply elem_of_cons in H as [H|H]; [discriminate H|]);
  by apply elem_of_nil in H.

Section ScanOneMore.
Variable uuid_source : nat → string.
Variable similaritySearch : DuplicateSearch → gmap string AssetRow → list Candidate.

Local Abbreviation scanOne := (handleSearchDuplicates uuid_source similaritySearch).
Local Abbreviation target_of := (chooseTarget uuid_source).


(** Scan-one fails in exactly two cases, the feature being on: the id is
    not in the asset table, or the asset passes the exclusion checks and has
    no embedding. *)
Theorem scan_one_fails_exactly_when i w :
  (handleSearchDuplicates uuid_source similaritySearch i w).1.1 = FAILED ↔
  isDuplicateDetectionEnabled (machineLearning w) = true
  ∧ (assets w !! i = None
     ∨ ∃ r, assets w !! i = Some r
         ∧ truthy (stackId r) = false
         ∧ visibility r ≠ HIDDEN
         ∧ visibility r ≠ LOCKED
         ∧ truthy (embedding r) = false).
Proof.
  destruct (isDuplicateDetectionEnabled (machineLearning w)) eqn:Hon;
    [|rewrite scanOne_disabled by done; split; [done|by intros [? _]]].
  destruct (assets w !! i) as [r|] eqn:Hr;
    [|rewrite scanOne_missing by done; split; [by auto|done]].
  rewrite (scanOne_found _ _ i w r Hon Hr).
  destruct (truthy (stackId r)) eqn:Hst.
  { split; [done|]. intros (_ & [?|(r' & [= <-] & ? & _)]); congruence. }
  case_bool_decide as Hh.
  { split; [done|]. intros (_ & [?|(r' & [= <-] & _ & ? & _)]); done. }
  case_bool_decide as Hl.
  { split; [done|]. intros (_ & [?|(r' & [= <-] & _ & _ & ? & _)]); done. }
  destruct (embedding r) as [[|c e]|] eqn:He; simpl.
  - split; [|done]. intros _. split; [done|]. right. exists r. by rewrite He.
  - split; [done|]. intros (_ & [?|(r' & [= <-] & _ & _ & _ & Hemb)]); [done|].
    by rewrite He in Hemb.
  - split; [|done]. intros _. split; [done|]. right. exists r. by rewrite He.
Qed.



(** A fresh group id is drawn only when no existing one is at hand: the run
    calls the random generator exactly when it found candidates, the scanned
    asset has no group and no candidate carries a group id; the id drawn is
    then the target of the merge. *)
Theorem scan_one_fresh_id_only_when_needed i w st w' tr q cs v :
  handleSearchDuplicates uuid_source similaritySearch i w = (st, w', tr) →
  CSearch q cs ∈ tr →
  CRandomUUID v ∈ tr ↔
  cs ≠ [] ∧ v = uuid_source (uuids w)
  ∧ (∃ r, assets w !! i = Some r ∧ duplicateId r = None)
  ∧ truthy_duplicateIds cs = []
  ∧ ∃ o, merges tr = [o] ∧ targetId o = v.
Proof.
  intros Hrun Hin.
  destruct (decide (cs = [])) as [->|Hcs].
  - split; [|by intros [? _]]. intros Hv.
    destruct (scanOne_guarded _ _ _ _ _ _ _ _ _ Hrun Hin) as (r & e & Hok & -> & Hres).
    rewrite (scanOne_scannable _ _ i w r e Hok) in Hrun. cbv zeta in Hrun.
    rewrite <- Hres, resolve_none in Hrun.
    destruct (truthy _); injection Hrun as <- <- <-; no_such_call Hv.
  - destruct (scanOne_merge _ _ _ _ _ _ _ _ _ Hrun Hin Hcs) as (r & Hr & _ & Hm & Htr).
    cbv zeta in Hm, Htr. rewrite Hm, Htr. clear Hm Htr.
    pose proof (new_Set_nil (truthy_duplicateIds cs)) as Hnil.
    destruct (duplicateId r) as [g|] eqn:Hg; simpl.
    + split; [intros Hv; no_such_call Hv|].
      intros (_ & _ & (r' & Hr' & Hnone) & _). congruence.
    + destruct (new_Set (truthy_duplicateIds cs)) as [|g rest]; simpl.
      * split.
        -- intros Hv.
           apply elem_of_cons in Hv as [?|Hv]; [done|].
           apply elem_of_cons in Hv as [[= ->]|Hv]; [|no_such_call Hv].
           split_and!; [done|done|by exists r|by apply Hnil|by eexists].
        -- intros (_ & -> & _). apply list_elem_of_further, list_elem_of_here.
      * split; [intros Hv; no_such_call Hv|].
        intros (_ & _ & _ & Hempty & _). apply Hnil in Hempty. done.
Qed.

End ScanOneMore.

Section MergeMore.
Variable uuid_source : nat → string.
Variable similaritySearch : DuplicateSearch → gmap string AssetRow → list Candidate.

(** The source groups of a merge are never made up: the list has no id
    twice, and every id in it is the group id of some candidate. *)
Theorem merge_sources_are_candidate_groups i w st w' tr q cs :
  handleSearchDuplicates uuid_source similaritySearch i w = (st, w', tr) →
  CSearch q cs ∈ tr →
  cs ≠ [] →
  ∃ o, merges tr = [o]
    ∧ NoDup (sourceIds o)
    ∧ ∀ g, g ∈ sourceIds o → ∃ c, c ∈ cs ∧ cand_duplicateId c = Some g.
Proof.
  intros Hrun Hin Hcs.
  destruct (scanOne_merge _ _ _ _ _ _ _ _ _ Hrun Hin Hcs) as (r & Hr & _ & Hm & _).
  eexists. split; [exact Hm|]. simpl.
  pose proof (new_Set_NoDup (truthy_duplicateIds cs)) as Hnd.
  assert (∀ g, g ∈ new_Set (truthy_duplicateIds cs) →
               ∃ c, c ∈ cs ∧ cand_duplicateId c = Some g) as Hfrom.
  { intros g Hg. rewrite new_Set_elem in Hg. unfold truthy_duplicateIds in Hg.
    apply list_elem_of_omap in Hg as (c & Hc & Hg). exists c. split; [done|].
    by destruct (truthy _). }
  destruct (duplicateId r) as [g0|]; simpl; [done|].
  destruct (new_Set (truthy_duplicateIds cs)) as [|g0 rest]; simpl.
  - split; [constructor|]. by intros g ?%elem_of_nil.
  - apply NoDup_cons in Hnd as [_ Hnd]. split; [done|].
    intros g Hg. apply Hfrom. by right.
Qed.

End MergeMore.

Section GroupingMore.
Variable uuid_source : nat → string.
Variable similar : DuplicateSearch → gmap string AssetRow → list string.

(** When the search reports the table's own group ids, a run that found
    candidates leaves the scanned asset and every candidate in the target
    group of its merge. *)
Theorem scan_one_groups_candidates i w st w' tr q cs :
  handleSearchDuplicates uuid_source (storeSearch similar) i w = (st, w', tr) →
  CSearch q cs ∈ tr →
  cs ≠ [] →
  ∃ o, merges tr = [o]
    ∧ (∃ r', assets w' !! i = Some r' ∧ duplicateId r' = Some (targetId o))
    ∧ ∀ c, c ∈ cs →
           ∃ rc, assets w' !! cand_assetId c = Some rc
                 ∧ duplicateId rc = Some (targetId o).
Proof.
  intros Hrun Hin Hcs.
  destruct (scanOne_merge _ _ _ _ _ _ _ _ _ Hrun Hin Hcs) as (r & Hr & _ & Hm & _).
  destruct (scanOne_guarded _ _ _ _ _ _ _ _ _ Hrun Hin) as (r0 & e & Hok & -> & Hres).
  rewrite (scanOne_scannable _ _ i w r0 e Hok) in Hrun. cbv zeta in Hrun.
  rewrite <- Hres, resolve_found, updateDuplicates_run in Hrun by done.
  cbv zeta in Hrun, Hm. cbn [fst snd id row assetIds] in Hrun.
  injection Hrun as <- <- <-.
  eexists. split; [exact Hm|]. cbn [targetId].
  destruct Hok as (_ & Hr0 & _). assert (r0 = r) as -> by congruence.
  set (ch := chooseTarget uuid_source (duplicateId r)
               (new_Set (truthy_duplicateIds cs)) w).
  assert (assets ch.1.2 = assets w) as Hch by apply target_of_assets.
  set (o := {| targetId := ch.1.1.1;
               assetIds := other_assetIds ch.1.1.1 cs ++ [i];
               sourceIds := ch.1.1.2 |}).
  simpl. split.
  - exists (merge_row o i r). rewrite lookup_merge, Hch, Hr. split; [done|].
    rewrite merge_row_listed; [done|]. simpl. apply elem_of_app. right.
    by apply list_elem_of_singleton.
  - intros c Hc. pose proof Hc as Hc'. rewrite Hres in Hc'.
    apply candidatesOf_elem in Hc' as (rc & _ & Hrc & Hdup).
    exists (merge_row o (cand_assetId c) rc).
    rewrite lookup_merge, Hch, Hrc. split; [done|].
    destruct (decide (duplicateId rc = Some ch.1.1.1)) as [Hsame|Hother].
    + by destruct (merge_row_regroups o (cand_assetId c) rc) as [-> | ->].
    + rewrite merge_row_listed; [done|]. simpl. apply elem_of_app. left.
      unfold other_assetIds. apply list_elem_of_fmap. exists c. split; [done|].
      apply list_elem_of_filter. split; [|done]. by rewrite Hdup.
Qed.

End GroupingMore.

Section FeatureOff.
Variable JOBS_ASSET_PAGINATION_SIZE : nat.
Variable uuid_source : nat → string.
Variable similaritySearch : DuplicateSearch → gmap string AssetRow → list Candidate.
Variable eligibleAssets : bool → gmap string AssetRow → list string.


(** The batches of scan-all never exceed the threshold: every batch
    submitted before the last holds exactly K jobs, the last one holds the
    N mod K jobs that remain, and the asset table is not touched. *)
Theorem scan_all_batch_sizes force w st w' tr :
  0 < JOBS_ASSET_PAGINATION_SIZE →
  isDuplicateDetectionEnabled (machineLearning w) = true →
  handleQueueSearchDuplicates JOBS_ASSET_PAGINATION_SIZE eligibleAssets force w
    = (st, w', tr) →
  ∃ full last, batches tr = full ++ [last]
    ∧ Forall (λ b, length b = JOBS_ASSET_PAGINATION_SIZE) full
    ∧ length last
      = length (eligibleAssets force (assets w)) mod JOBS_ASSET_PAGINATION_SIZE
    ∧ assets w' = assets w.
Proof.
  intros HK Hon Hrun.
  unfold handleQueueSearchDuplicates, bind, getConfig, reads, ret, queueAll,
    assetJobRepository_streamForSearchDuplicates, jobRepository_queueAll in Hrun.
  simpl in Hrun. rewrite Hon in Hrun. simpl in Hrun.
  set (stream := eligibleAssets force (assets w)) in *.
  pose proof (forAwait_run JOBS_ASSET_PAGINATION_SIZE stream [] w HK HK) as Hloop.
  destruct (forAwait _ stream [] w) as [[left w1] t1].
  destruct Hloop as (Htr & Hfl & Hlt & Hcat & Has). simpl in *.
  injection Hrun as <- <- <-.
  exists (batches t1), left. rewrite batches_app. split_and!; [done|done| |done].
  assert (length (batches t1) * JOBS_ASSET_PAGINATION_SIZE + length left
          = length stream) as Hsplit.
  { rewrite <- full_batches_length, <- length_app, Hcat by done.
    by rewrite length_fmap. }
  apply (Nat.mod_unique _ _ (length (batches t1))); lia.
Qed.

End FeatureOff.

(** * Properties of the user administration service *)

Section UserAdmin.
Import UserAdminService.
Context {Db : Type} `{!Repositories Db}.

Ltac unfold_ops :=
  unfold UserAdminService.get, UserAdminService.create, UserAdminService.update,
    UserAdminService.delete, UserAdminService.restore, findOrFail,
    rejectDuplicate, hashed, UserAdminService.bind, read, write, call,
    UserAdminService.ret, throw, UserAdminService.new_Date in *.

(** An id the user repository does not know makes [get], [update], [delete]
    and [restore] throw "User not found", with the lookup as their only call
    and the store as it was. *)
Theorem unknown_user_is_not_found (auth : AuthDto) (i : string)
    (updateDto : UserAdminUpdateDto) (deleteDto : UserAdminDeleteDto) (db : Db) :
  (∀ options, userRepository_get i options db = None) →
  UserAdminService.get auth i db
    = (inl (BadRequestException "User not found"), db,
       [Get i {| withDeleted := value true |}])
  ∧ UserAdminService.update auth i updateDto db
    = (inl (BadRequestException "User not found"), db,
       [Get i {| withDeleted := undefined |}])
  ∧ UserAdminService.delete auth i deleteDto db
    = (inl (BadRequestException "User not found"), db,
       [Get i {| withDeleted := undefined |}])
  ∧ UserAdminService.restore auth i db
    = (inl (BadRequestException "User not found"), db,
       [Get i {| withDeleted := value true |}]).
Proof.
  intros Hno. unfold_ops. simpl. by rewrite !Hno.
Qed.

(** An administrator cannot delete their own account: the request is refused
    with "Cannot delete your own account" once the account is found, before
    any album or user row is touched. *)
Theorem delete_own_account_forbidden (auth : AuthDto) (i : string)
    (dto : UserAdminDeleteDto) (db : Db) (found : User) :
  userRepository_get i {| withDeleted := undefined |} db = Some found →
  id (user auth) = i →
  UserAdminService.delete auth i dto db
    = (inl (ForbiddenException "Cannot delete your own account"), db,
       [Get i {| withDeleted := undefined |}]).
Proof.
  intros Hfound Hself. unfold_ops. simpl. rewrite Hfound. simpl.
  by rewrite bool_decide_eq_true_2.
Qed.

(** Deleting another account soft-deletes its albums, then marks the row:
    [DELETED] with no job queued, or, when forced, [REMOVING] with one
    user-deletion job queued for the id of the row the repository returned. *)
Theorem delete_marks_then_queues (auth : AuthDto) (i : string)
    (dto : UserAdminDeleteDto) (db : Db) (found : User) :
  userRepository_get i {| withDeleted := undefined |} db = Some found →
  id (user auth) ≠ i →
  let db1 := albumRepository_softDeleteAll i db in
  let status := if truthy_boolean (force dto) then REMOVING else DELETED in
  let marked := userRepository_update i (UpdateStatus status (now db1)) db1 in
  UserAdminService.delete auth i dto db
    = (inr marked.1, marked.2,
       [Get i {| withDeleted := undefined |};
        SoftDeleteAll i;
        Update i (UpdateStatus status (now db1))]
       ++ if truthy_boolean (force dto)
          then [Queue {| name := USER_DELETION; data_id := id marked.1;
                         data_force := force dto |}]
          else []).
Proof.
  intros Hfound Hother. unfold_ops. simpl. rewrite Hfound. simpl.
  rewrite bool_decide_eq_false_2 by done. simpl.
  destruct (userRepository_update _ _ _) as [u db2]. simpl.
  by destruct (truthy_boolean (force dto)).
Qed.

(** *** The steps of [update] *)

Lemma checkEmail_run (i : string) (dto : UserAdminUpdateDto) (db : Db) :
  ∃ res t, checkEmail i dto db = (res, db, t)
    ∧ Forall (λ c, ∃ email, c = GetByEmail email) t
    ∧ ∀ e, res = inl e →
           e = BadRequestException "Email already in use by another account"
           ∧ ∃ email other, dto_email dto = value email
               ∧ userRepository_getByEmail email db = Some other
               ∧ id other ≠ i.
Proof.
  unfold checkEmail. unfold_ops.
  destruct (dto_email dto) as [| |[|c e]]; simpl;
    try by (eexists _, _; split_and!; [done|constructor|done]).
  destruct (userRepository_getByEmail _ db) as [other|] eqn:Hother; simpl;
    [case_bool_decide|]; simpl; eexists _, _;
    (split_and!; [reflexivity|repeat constructor; by eexists|]).
  - intros e' [= <-]. split; [done|]. by eexists _, _.
  - done.
  - done.
Qed.

Lemma checkStorageLabel_run (i : string) (dto : UserAdminUpdateDto) (db : Db) :
  ∃ res t, checkStorageLabel i dto db = (res, db, t)
    ∧ Forall (λ c, ∃ label, c = GetByStorageLabel label) t
    ∧ ∀ e, res = inl e →
           e = BadRequestException "Storage label already in use by another account"
           ∧ ∃ label other, dto_storageLabel dto = value label
               ∧ userRepository_getByStorageLabel label db = Some other
               ∧ id other ≠ i.
Proof.
  unfold checkStorageLabel. unfold_ops.
  destruct (dto_storageLabel dto) as [| |[|c e]]; simpl;
    try by (eexists _, _; split_and!; [done|constructor|done]).
  destruct (userRepository_getByStorageLabel _ db) as [other|] eqn:Hother; simpl;
    [case_bool_decide|]; simpl; eexists _, _;
    (split_and!; [reflexivity|repeat constructor; by eexists|]).
  - intros e' [= <-]. split; [done|]. by eexists _, _.
  - done.
  - done.
Qed.

Lemma hashed_run (x : js string) (db : Db) :
  ∃ t, hashed x db = (inr (storedSecret x), db, t)
       ∧ Forall (λ c, ∃ plain rounds, c = HashBcrypt plain rounds) t.
Proof.
  unfold hashed, storedSecret. unfold_ops.
  destruct x as [| |[|c e]]; simpl; eexists; (split; [done|]);
    repeat constructor; by eexists _, _.
Qed.

(** The run of [update] once the account is found and the admin flag is
    not at stake: the usage sync, the two uniqueness checks, the hashing and
    the store, in this order. *)
Lemma update_run (auth : AuthDto) (i : string) (dto : UserAdminUpdateDto)
    (db : Db) (found : User) :
  userRepository_get i {| withDeleted := undefined |} db = Some found →
  changesOwnAdminFlag auth i dto = false →
  let db1 := if changesQuota found dto then userRepository_syncUsage i db else db in
  let t1 := if changesQuota found dto then [SyncUsage i] else [] in
  ∃ res2 t2 res3 t3 t4 t5,
    checkEmail i dto db1 = (res2, db1, t2)
    ∧ checkStorageLabel i dto db1 = (res3, db1, t3)
    ∧ Forall (λ c, ∃ email, c = GetByEmail email) t2
    ∧ Forall (λ c, ∃ label, c = GetByStorageLabel label) t3
    ∧ Forall (λ c, ∃ plain rounds, c = HashBcrypt plain rounds) (t4 ++ t5)
    ∧ UserAdminService.update auth i dto db
      = match res2, res3 with
        | inl e, _ => (inl e, db1, Get i {| withDeleted := undefined |} :: t1 ++ t2)
        | inr _, inl e =>
            (inl e, db1, Get i {| withDeleted := undefined |} :: t1 ++ t2 ++ t3)
        | inr _, inr _ =>
            let fields :=
              UpdateFields
                {| dto_isAdmin := dto_isAdmin dto;
                   dto_quotaSizeInBytes := dto_quotaSizeInBytes dto;
                   dto_email := dto_email dto;
                   dto_storageLabel := storedLabel (dto_storageLabel dto);
                   dto_password := storedSecret (dto_password dto);
                   dto_pinCode := storedSecret (dto_pinCode dto);
                   dto_rest := dto_rest dto |}
                (now db1) in
            let updated := userRepository_update i fields db1 in
            (inr updated.1, updated.2,
             Get i {| withDeleted := undefined |}
             :: t1 ++ t2 ++ t3 ++ (t4 ++ t5) ++ [Update i fields])
        end.
Proof.
  intros Hfound Hflag db1 t1.
  assert (syncUsageIfQuotaChanges i found dto db = (inr (), db1, t1)) as H1.
  { unfold syncUsageIfQuotaChanges, db1, t1. by destruct (changesQuota found dto). }
  destruct (checkEmail_run i dto db1) as (res2 & t2 & H2 & Hs2 & _).
  destruct (checkStorageLabel_run i dto db1) as (res3 & t3 & H3 & Hs3 & _).
  destruct (hashed_run (dto_password dto) db1) as (t4 & H4 & Hs4).
  destruct (hashed_run (dto_pinCode dto) db1) as (t5 & H5 & Hs5).
  exists res2, t2, res3, t3, t4, t5.
  split_and!; try done.
  { by rewrite Forall_app. }
  unfold UserAdminService.update, findOrFail.
  unfold UserAdminService.bind at 1 2. unfold read, call. rewrite Hfound. simpl.
  rewrite Hflag. unfold UserAdminService.bind at 1. rewrite H1.
  unfold UserAdminService.bind at 1. rewrite H2.
  destruct res2 as [e|[]]; [done|].
  unfold UserAdminService.bind at 1. rewrite H3.
  destruct res3 as [e|[]]; [simpl; by rewrite <- ?app_assoc|].
  unfold UserAdminService.bind at 1. rewrite H4.
  unfold UserAdminService.bind at 1. rewrite H5.
  unfold UserAdminService.bind, UserAdminService.new_Date, call. simpl.
  destruct (userRepository_update _ _ _) as [updated db2]. simpl.
  by rewrite <- ?app_assoc.
Qed.

Lemma update_unknown (auth : AuthDto) (i : string) (dto : UserAdminUpdateDto) (db : Db) :
  userRepository_get i {| withDeleted := undefined |} db = None →
  UserAdminService.update auth i dto db
    = (inl (BadRequestException "User not found"), db,
       [Get i {| withDeleted := undefined |}]).
Proof. intros Hno. unfold_ops. simpl. by rewrite Hno. Qed.

Lemma update_own_flag (auth : AuthDto) (i : string) (dto : UserAdminUpdateDto)
    (db : Db) (found : User) :
  userRepository_get i {| withDeleted := undefined |} db = Some found →
  changesOwnAdminFlag auth i dto = true →
  UserAdminService.update auth i dto db
    = (inl (BadRequestException "Admin status can only be changed by another admin"),
       db, [Get i {| withDeleted := undefined |}]).
Proof.
  intros Hfound Hself. unfold_ops. simpl. rewrite Hfound. simpl.
  by rewrite Hself.
Qed.

(** Membership in the calls of a step, by the kind of its calls. *)
Ltac not_in_step H :=
  match type of H with
  | _ ∈ ?t =>
      match goal with
      | Hall : Forall _ t |- _ =>
          rewrite Forall_forall in Hall; apply Hall in H;
          (destruct H as (? & ? & H) || destruct H as (? & H)); discriminate H
      end
  end.


(** A refused update has stored nothing: when [update] throws, it has
    neither hashed a secret nor called [userRepository.update]; the store is
    as it was, up to the usage sync that precedes the uniqueness checks. *)
Theorem update_refused_stores_nothing (auth : AuthDto) (i : string)
    (dto : UserAdminUpdateDto) (db db' : Db) (e : HttpException) (tr : list Call) :
  UserAdminService.update auth i dto db = (inl e, db', tr) →
  Forall (λ c, stores c = false) tr
  ∧ (db' = db ∨ db' = userRepository_syncUsage i db).
Proof.
  destruct (userRepository_get i {| withDeleted := undefined |} db)
    as [found|] eqn:Hfound;
    [|rewrite update_unknown by done; intros [= <- <- <-];
      split; [by repeat constructor|by left]].
  destruct (changesOwnAdminFlag auth i dto) eqn:Hflag;
    [rewrite (update_own_flag auth i dto db found) by done; intros [= <- <- <-];
     split; [by repeat constructor|by left]|].
  destruct (update_run auth i dto db found Hfound Hflag)
    as (res2 & t2 & res3 & t3 & t4 & t5 & _ & _ & Hs2 & Hs3 & _ & ->).
  assert (∀ t : list Call, Forall (λ c, ∃ email, c = GetByEmail email) t →
                           Forall (λ c, stores c = false) t) as Hemail.
  { intros t Ht. eapply Forall_impl; [exact Ht|]. by intros c [email ->]. }
  assert (∀ t : list Call, Forall (λ c, ∃ label, c = GetByStorageLabel label) t →
                           Forall (λ c, stores c = false) t) as Hlabel.
  { intros t Ht. eapply Forall_impl; [exact Ht|]. by intros c [label ->]. }
  destruct res2 as [e2|[]]; [|destruct res3 as [e3|[]]]; intros [= <- <- <-].
  all: split; [|destruct (changesQuota found dto); auto].
  all: constructor; [done|]; rewrite ?Forall_app; split_and!; auto.
  all: destruct (changesQuota found dto); by repeat constructor.
Qed.

(** What reaches [userRepository.update] from [update]: the call is made for
    the id asked for, as the last call of a run that returns; a non-empty
    password or PIN code arrives as its bcrypt hash, never as submitted; an
    empty storage label arrives as [null]; the other fields arrive as they
    were. *)
Theorem update_stores_hashed_secrets (auth : AuthDto) (i : string)
    (dto : UserAdminUpdateDto) (db db' : Db) (res : HttpException + User)
    (tr : list Call) (j : string) (fields : UserUpdate) :
  UserAdminService.update auth i dto db = (res, db', tr) →
  Update j fields ∈ tr →
  ∃ stored updatedAt updated,
    j = i
    ∧ fields = UpdateFields stored updatedAt
    ∧ res = inr updated
    ∧ last tr = Some (Update j fields)
    ∧ dto_password stored = storedSecret (dto_password dto)
    ∧ dto_pinCode stored = storedSecret (dto_pinCode dto)
    ∧ dto_storageLabel stored = storedLabel (dto_storageLabel dto)
    ∧ dto_isAdmin stored = dto_isAdmin dto
    ∧ dto_quotaSizeInBytes stored = dto_quotaSizeInBytes dto
    ∧ dto_email stored = dto_email dto
    ∧ dto_rest stored = dto_rest dto.
Proof.
  destruct (userRepository_get i {| withDeleted := undefined |} db)
    as [found|] eqn:Hfound;
    [|rewrite update_unknown by done; intros [= <- <- <-] Hin; no_such_call Hin].
  destruct (changesOwnAdminFlag auth i dto) eqn:Hflag;
    [rewrite (update_own_flag auth i dto db found) by done;
     intros [= <- <- <-] Hin; no_such_call Hin|].
  destruct (update_run auth i dto db found Hfound Hflag)
    as (res2 & t2 & res3 & t3 & t4 & t5 & _ & _ & Hs2 & Hs3 & Hs45 & ->).
  assert (∀ t : list Call, t = (if changesQuota found dto then [SyncUsage i] else []) →
                           Update j fields ∉ t) as Hs1.
  { intros t -> Hin. destruct (changesQuota found dto); no_such_call Hin. }
  destruct res2 as [e2|[]]; [|destruct res3 as [e3|[]]]; intros [= <- <- <-] Hin.
  all: apply elem_of_cons in Hin as [Hin|Hin]; [discriminate Hin|].
  all: repeat (apply elem_of_app in Hin as [Hin|Hin];
               [first [by eapply Hs1 in Hin|not_in_step Hin]|]).
  all: try (by eapply Hs1 in Hin); try not_in_step Hin.
  apply list_elem_of_singleton in Hin. injection Hin as -> ->.
  eexists _, _, _. split_and!; try done.
  rewrite app_comm_cons, !app_assoc. apply last_snoc.
Qed.

(** A uniqueness refusal is never about the account itself: when [update]
    throws "Email already in use by another account" (or the same for the
    storage label), the repository does hold the submitted email (or label)
    for an account with another id. *)
Theorem update_conflicts_are_with_others (auth : AuthDto) (i : string)
    (dto : UserAdminUpdateDto) (db db' : Db) (tr : list Call) :
  (UserAdminService.update auth i dto db
     = (inl (BadRequestException "Email already in use by another account"), db', tr) →
   ∃ email other, dto_email dto = value email
     ∧ userRepository_getByEmail email db' = Some other
     ∧ id other ≠ i)
  ∧ (UserAdminService.update auth i dto db
       = (inl (BadRequestException "Storage label already in use by another account"),
          db', tr) →
     ∃ label other, dto_storageLabel dto = value label
       ∧ userRepository_getByStorageLabel label db' = Some other
       ∧ id other ≠ i).
Proof.
  destruct (userRepository_get i {| withDeleted := undefined |} db)
    as [found|] eqn:Hfound;
    [|rewrite update_unknown by done; split; intros [= ? ? ?]].
  destruct (changesOwnAdminFlag auth i dto) eqn:Hflag;
    [rewrite (update_own_flag auth i dto db found) by done;
     split; intros [= ? ? ?]|].
  pose proof (update_run auth i dto db found Hfound Hflag) as Hrun.
  cbv zeta in Hrun.
  set (db1 := if changesQuota found dto then userRepository_syncUsage i db else db) in *.
  destruct Hrun as (res2 & t2 & res3 & t3 & t4 & t5 & H2 & H3 & _ & _ & _ & ->).
  destruct (checkEmail_run i dto db1) as (res2' & t2' & H2' & _ & Hemail).
  destruct (checkStorageLabel_run i dto db1) as (res3' & t3' & H3' & _ & Hlabel).
  rewrite H2 in H2'. rewrite H3 in H3'. simplify_eq.
  destruct res2' as [e2|[]]; [|destruct res3' as [e3|[]]].
  - destruct (Hemail e2 eq_refl) as (-> & Hwho). split; intros [= <- <-]; done.
  - destruct (Hlabel e3 eq_refl) as (-> & Hwho). split; intros [= <- <-]; done.
  - split; intros [= ? ? ?].
Qed.


(** *** [create] *)

(** Without OAuth a new user needs a password: [create] throws "password is
    required" before any user is created or any event emitted. *)
Theorem create_requires_password (dto : UserAdminCreateDto) (db : Db) :
  oauth_enabled db = false →
  truthy_string (password dto) = false →
  UserAdminService.create dto db
    = (inl (BadRequestException "password is required"), db, [GetConfig false]).
Proof.
  intros Hoauth Hpw. unfold_ops. simpl. by rewrite Hoauth, Hpw.
Qed.


End UserAdmin.

(** ** The further properties on concrete input *)

Section MoreRuns.
Import Example.
Local Open Scope string_scope.

Local Abbreviation run i := (handleSearchDuplicates uuid search i (world true)).
Local Abbreviation row_a := (photo NORMAL None (Some "e1") None).
Local Abbreviation query_a := (searchQuery (world true) "a" row_a "e1").
Local Abbreviation row_x := (photo NORMAL None (Some "e9") None).
Local Abbreviation query_x := (searchQuery Fresh.world "x" row_x "e9").
Local Abbreviation fresh_run :=
  (handleSearchDuplicates uuid Fresh.search "x" Fresh.world).




(** The fresh id at [x]: neither [x] nor its candidate [y] has a group, and
    four ids were drawn before. *)
Lemma scan_one_fresh_id_only_when_needed_witness :
  CRandomUUID (uuid 4) ∈ fresh_run.2
  ∧ (CRandomUUID (uuid 4) ∈ fresh_run.2 ↔
     Fresh.search query_x Fresh.library ≠ []
     ∧ uuid 4 = uuid (uuids Fresh.world)
     ∧ (∃ r, assets Fresh.world !! "x" = Some r ∧ duplicateId r = None)
     ∧ truthy_duplicateIds (Fresh.search query_x Fresh.library) = []
     ∧ ∃ o, merges fresh_run.2 = [o] ∧ targetId o = uuid 4).
Proof.
  split; [vm_compute; apply list_elem_of_further, list_elem_of_here|].
  apply (scan_one_fresh_id_only_when_needed uuid Fresh.search "x" Fresh.world
           fresh_run.1.1 fresh_run.1.2 fresh_run.2 query_x).
  - apply run_eta.
  - vm_compute. apply list_elem_of_here.
Defined.

(** The sources of the merge at [a], which has no group. *)
Lemma merge_sources_ungrouped_witness :
  search query_a library ≠ []
  ∧ ∃ r o, assets (world true) !! "a" = Some r ∧ merges (run "a").2 = [o]
      ∧ (duplicateId r = None →
         NoDup (sourceIds o)
         ∧ (targetId o ∉ sourceIds o)
         ∧ ∀ g, g ∈ sourceIds o ↔
                g ∈ truthy_duplicateIds (search query_a library) ∧ g ≠ targetId o).
Proof.
  split; [by vm_compute|].
  apply (merge_sources_ungrouped uuid search "a" (world true)
           (run "a").1.1 (run "a").1.2 (run "a").2 query_a).
  - apply run_eta.
  - vm_compute. apply list_elem_of_here.
  - by vm_compute.
Defined.

Lemma merge_sources_are_candidate_groups_witness :
  search query_a library ≠ []
  ∧ ∃ o, merges (run "a").2 = [o]
      ∧ NoDup (sourceIds o)
      ∧ ∀ g, g ∈ sourceIds o →
             ∃ c, c ∈ search query_a library ∧ cand_duplicateId c = Some g.
Proof.
  split; [by vm_compute|].
  apply (merge_sources_are_candidate_groups uuid search "a" (world true)
           (run "a").1.1 (run "a").1.2 (run "a").2 query_a).
  - apply run_eta.
  - vm_compute. apply list_elem_of_here.
  - by vm_compute.
Defined.

(** After the run at [a], [a], [b] and [c] are in one group. *)
Lemma scan_one_groups_candidates_witness :
  search query_a library ≠ []
  ∧ ∃ o, merges (run "a").2 = [o]
      ∧ (∃ r', assets (run "a").1.2 !! "a" = Some r'
               ∧ duplicateId r' = Some (targetId o))
      ∧ ∀ c, c ∈ search query_a library →
             ∃ rc, assets (run "a").1.2 !! cand_assetId c = Some rc
                   ∧ duplicateId rc = Some (targetId o).
Proof.
  split; [by vm_compute|].
  apply (scan_one_groups_candidates uuid near "a" (world true)
           (run "a").1.1 (run "a").1.2 (run "a").2 query_a).
  - apply run_eta.
  - vm_compute. apply list_elem_of_here.
  - by vm_compute.
Defined.


Local Abbreviation scanAll K := (handleQueueSearchDuplicates K stream true (world true)).

(** Four assets at a threshold of 3: one full batch, then one job. *)
Lemma scan_all_batch_sizes_witness :
  ∃ full last, batches (scanAll 3).2 = (full ++ [last])%list
    ∧ Forall (λ b, length b = 3) full
    ∧ length last = length (stream true (assets (world true))) mod 3
    ∧ assets (scanAll 3).1.2 = assets (world true).
Proof.
  apply (scan_all_batch_sizes 3 stream true (world true)
           (scanAll 3).1.1 (scanAll 3).1.2 (scanAll 3).2).
  - lia.
  - reflexivity.
  - apply run_eta.
Defined.

End MoreRuns.

Section UserAdminRuns.
Import UserAdminService UserAdminExample.
Local Open Scope string_scope.

Local Existing Instance repositories.

Lemma result_eta {A B C} (x : A * B * C) : x = (x.1.1, x.1.2, x.2).
Proof. by destruct x as [[? ?] ?]. Defined.

(** Nobody is known as [dave]. *)
Lemma unknown_user_is_not_found_witness :
  UserAdminService.get asAlice "dave" users
    = (inl (BadRequestException "User not found"), users,
       [Get "dave" {| withDeleted := value true |}])
  ∧ UserAdminService.update asAlice "dave" noChange users
    = (inl (BadRequestException "User not found"), users,
       [Get "dave" {| withDeleted := undefined |}])
  ∧ UserAdminService.delete asAlice "dave" {| force := undefined |} users
    = (inl (BadRequestException "User not found"), users,
       [Get "dave" {| withDeleted := undefined |}])
  ∧ UserAdminService.restore asAlice "dave" users
    = (inl (BadRequestException "User not found"), users,
       [Get "dave" {| withDeleted := value true |}]).
Proof.
  apply (unknown_user_is_not_found asAlice "dave" noChange {| force := undefined |} users).
  intros options. by vm_compute.
Defined.

(** Alice deleting alice. *)
Lemma delete_own_account_forbidden_witness :
  UserAdminService.delete asAlice "alice" {| force := value true |} users
    = (inl (ForbiddenException "Cannot delete your own account"), users,
       [Get "alice" {| withDeleted := undefined |}]).
Proof.
  apply (delete_own_account_forbidden asAlice "alice" {| force := value true |}
           users alice).
  - by vm_compute.
  - reflexivity.
Defined.

(** Alice deleting bob, forced. *)
Lemma delete_marks_then_queues_witness :
  UserAdminService.delete asAlice "bob" {| force := value true |} users
    = (inr bob, users,
       [Get "bob" {| withDeleted := undefined |};
        SoftDeleteAll "bob";
        Update "bob" (UpdateStatus REMOVING 7);
        Queue {| name := USER_DELETION; data_id := "bob";
                 data_force := value true |}]).
Proof.
  pose proof (delete_marks_then_queues asAlice "bob" {| force := value true |}
                users bob) as Hrun.
  vm_compute in Hrun. vm_compute. apply Hrun; [reflexivity|discriminate].
Defined.


Local Abbreviation taken := (UserAdminService.update asAlice "alice" takeEmail users).
Local Abbreviation reset := (UserAdminService.update asAlice "bob" resetBob users).

(** Alice asking for bob's email, with a new password: refused, nothing
    hashed or stored. *)
Lemma update_refused_stores_nothing_witness :
  taken.1.1 = inl (BadRequestException "Email already in use by another account")
  ∧ Forall (λ c, stores c = false) taken.2
  ∧ (taken.1.2 = users ∨ taken.1.2 = userRepository_syncUsage "alice" users).
Proof.
  split; [by vm_compute|].
  apply (update_refused_stores_nothing asAlice "alice" takeEmail users taken.1.2
           (BadRequestException "Email already in use by another account") taken.2).
  by vm_compute.
Defined.

(** Bob's reset: the password arrives hashed, the empty label as [null]. *)
Lemma update_stores_hashed_secrets_witness :
  ∃ stored updatedAt,
    Update "bob" (UpdateFields stored updatedAt) ∈ reset.2
    ∧ last reset.2 = Some (Update "bob" (UpdateFields stored updatedAt))
    ∧ dto_password stored = value "bcrypt:secret"
    ∧ dto_storageLabel stored = null
    ∧ dto_quotaSizeInBytes stored = value 500%Z.
Proof.
  assert (Update "bob"
            (UpdateFields
               {| dto_isAdmin := undefined;
                  dto_quotaSizeInBytes := value 500%Z;
                  dto_email := undefined; dto_storageLabel := null;
                  dto_password := value "bcrypt:secret";
                  dto_pinCode := undefined; dto_rest := [] |} 7) ∈ reset.2) as Hin.
  { vm_compute. do 3 apply list_elem_of_further. apply list_elem_of_here. }
  destruct (update_stores_hashed_secrets asAlice "bob" resetBob users
              reset.1.2 reset.1.1 reset.2 _ _ (result_eta reset) Hin)
    as (stored & updatedAt & updated & _ & Hfields & _ & Hlast & Hpw & _ & Hlabel
        & _ & Hquota & _).
  exists stored, updatedAt. rewrite <- Hfields.
  split_and!; [exact Hin|exact Hlast|by rewrite Hpw|by rewrite Hlabel|by rewrite Hquota].
Defined.

(** The refusal of bob's email is about bob, not about alice. *)
Lemma update_conflicts_are_with_others_witness :
  ∃ email other, dto_email takeEmail = value email
    ∧ userRepository_getByEmail email users = Some other
    ∧ id other ≠ "alice".
Proof.
  apply (proj1 (update_conflicts_are_with_others asAlice "alice" takeEmail
                  users users taken.2)).
  by vm_compute.
Defined.


(** A new user without password, OAuth being off. *)
Lemma create_requires_password_witness :
  UserAdminService.create (newUser undefined) users
    = (inl (BadRequestException "password is required"), users, [GetConfig false]).
Proof.
  apply (create_requires_password (newUser undefined) users); reflexivity.
Defined.

Local Abbreviation created := (UserAdminService.create (newUser (value "initial")) users).


End UserAdminRuns.
